(** * Quota, usage accounting and rate limiting of the YouTube Script AI backend

    A shallow embedding of [server.js]: the quota evaluator [checkQuota],
    the usage ledger [logUsage], the start-up seeding of [usage_quotas] in
    [initDB], the three generation routes and the Express route table with
    its rate limiters; then the routes for accounts and saved scripts.
    The file holds the server twice, with the same text (lines 478-1386
    and 1386-2294), after a set of add-on routes (lines 1-477) whose
    [logUsage] calls pass nine arguments.  Line numbers refer to the last
    copy. *)

From Stdlib Require Import ZArith Lia Ascii.
From stdpp Require Import base option list strings pretty gmap sorting.

Set Warnings "-register-all".

Local Open Scope Z_scope.

(** ** JavaScript values and errors *)

(** JSON data: request bodies, the JSONB [metadata] column and the value
    that [JSON.parse] returns. *)
Inductive json : Type :=
  | JNull
  | JBool (b : bool)
  | JNum (n : Z)
  | JStr (s : string)
  | JArr (items : list json)
  | JObj (fields : list (string * json)).

(** The values that flow through the handlers.  Request parameters are
    strings, as the front end sends them; [VFunction] stands for the
    module-level bindings that are functions or library objects. *)
Inductive js_value : Type :=
  | VUndefined
  | VNull
  | VBool (b : bool)
  | VNum (n : Z)
  | VStr (s : string)
  | VObj (fields : list (string * js_value))
  | VFunction (name : string).

Record js_error : Type := JsError { err_name : string; err_message : string }.

Definition Error (msg : string) : js_error := JsError "Error" msg.
Definition TypeError (msg : string) : js_error := JsError "TypeError" msg.
Definition ReferenceError (msg : string) : js_error := JsError "ReferenceError" msg.
Definition SyntaxError (msg : string) : js_error := JsError "SyntaxError" msg.

(** [x || d] on the values above: the falsy ones are [undefined], [null],
    [false], [0] and the empty string. *)
Definition truthy (v : js_value) : bool :=
  match v with
  | VUndefined | VNull | VBool false | VNum 0 | VStr "" => false
  | _ => true
  end.

Definition js_or (v d : js_value) : js_value := if truthy v then v else d.

(** [JSON.stringify] of a value, kept as JSON data.  Properties whose
    value is [undefined] or a function are left out, as the built-in does;
    the result is [None] where the built-in returns [undefined]. *)
Fixpoint JSON_stringify (v : js_value) : option json :=
  match v with
  | VUndefined | VFunction _ => None
  | VNull => Some JNull
  | VBool b => Some (JBool b)
  | VNum n => Some (JNum n)
  | VStr s => Some (JStr s)
  | VObj fs =>
      Some (JObj ((fix fields_json (l : list (string * js_value)) : list (string * json) :=
                     match l with
                     | [] => []
                     | (k, x) :: rest =>
                         match JSON_stringify x with
                         | Some j => (k, j) :: fields_json rest
                         | None => fields_json rest
                         end
                     end) fs))
  end.

(** ** The relational store *)

(** A [TIMESTAMP] value: calendar date and the microseconds since
    midnight.  Ordering is the lexicographic one. *)
Record timestamp : Type := Timestamp {
  ts_year : Z;
  ts_month : Z;
  ts_day : Z;
  ts_micros : Z
}.

Definition ts_leb (a b : timestamp) : bool :=
  if bool_decide (ts_year a = ts_year b) then
    if bool_decide (ts_month a = ts_month b) then
      if bool_decide (ts_day a = ts_day b) then bool_decide (ts_micros a <= ts_micros b)
      else bool_decide (ts_day a < ts_day b)
    else bool_decide (ts_month a < ts_month b)
  else bool_decide (ts_year a < ts_year b).

(** [DATE_TRUNC('month', t)]: the first instant of the month of [t]. *)
Definition date_trunc_month (t : timestamp) : timestamp :=
  {| ts_year := ts_year t; ts_month := ts_month t; ts_day := 1; ts_micros := 0 |}.

Definition ts_wf (t : timestamp) : Prop :=
  1 <= ts_month t <= 12 /\ 1 <= ts_day t <= 31 /\ 0 <= ts_micros t < 86400000000.

#[global] Instance ts_wf_dec t : Decision (ts_wf t).
Proof. unfold ts_wf. apply _. Defined.

Definition same_month (a b : timestamp) : Prop :=
  ts_year a = ts_year b /\ ts_month a = ts_month b.

#[global] Instance same_month_dec a b : Decision (same_month a b).
Proof. unfold same_month. apply _. Defined.

(** Table [users] (lines 1443-1454), the columns the subsystem reads. *)
Record user_row : Type := UserRow {
  email : string;
  access_level : string;
  preferred_voice : string
}.

(** Table [usage_quotas] (lines 1494-1505), keyed by [access_level]. *)
Record quota_row : Type := QuotaRow {
  monthly_script_limit : Z;
  monthly_hooks_limit : Z;
  monthly_titles_limit : Z;
  monthly_outline_limit : Z;
  monthly_description_limit : Z;
  monthly_tags_limit : Z;
  monthly_thumbnail_limit : Z;
  monthly_ctas_limit : Z;
  features_enabled : list string
}.

(** Table [usage_logs] (lines 1457-1467).  Only [feature_type] is
    [NOT NULL]; [created_at] is filled by its default. *)
Record usage_log : Type := UsageLog {
  user_id : option Z;
  feature_type : string;
  tokens_used : option Z;
  processing_time_ms : option Z;
  success : option bool;
  error_message : option string;
  metadata : option json;
  created_at : timestamp
}.

(** The statements the subsystem sends to the pool. *)
Inductive db_query : Type :=
  | SelectUserAccessLevel (id : Z)
  | SelectQuota (tier : string)
  | CountUsage (id : Z) (feature : string)
  | SelectVoicePreset (name : string)
  | InsertUsageLog.

(** ** The world a request runs in *)

Inductive remote_body : Type :=
  | BodyText (text : string)       (* [data.content[0].text] is this string *)
  | BodyMalformed (e : js_error).  (* [response.json()] or the property path throws *)

Inductive remote_outcome : Type :=
  | FetchRejects (e : js_error)
  | FetchResponds (status : Z) (body : remote_body) (latency_ms : Z).

Record fetch_call : Type := FetchCall {
  fc_max_tokens : Z;
  fc_voice_prompt : option string
}.

Inductive response_body : Type :=
  | ErrorBody (error : option string)
  | ScriptBody (script : string) (words estimatedDuration_x100 processingTime : Z)
  | HooksBody (hooks : json)
  | TitlesBody (titles : json).

Record http_response : Type := HttpResponse {
  res_status : Z;
  res_body : response_body
}.

Record world : Type := World {
  users : gmap Z user_row;
  usage_quotas : gmap string quota_row;
  usage_logs : list usage_log;
  voice_presets : gmap string string;
  current_timestamp : timestamp;   (* [CURRENT_TIMESTAMP] of the store *)
  db_faults : list bool;           (* [true]: the next statement is rejected *)
  db_trace : list db_query;        (* statements sent so far, oldest first *)
  clock_ms : Z;                    (* [Date.now()] *)
  remote : remote_outcome;         (* what the generation service will do *)
  fetch_trace : list fetch_call;   (* remote calls made so far *)
  console : list string;           (* [console.error] lines *)
  sent : list http_response;       (* what [res] has sent *)
  rate_limit_hits : gmap (string * string) (Z * Z)
    (* per limiter and client: hits in the current window, and its end *)
}.

Definition set_db (w : world) (faults : list bool) (trace : list db_query) : world :=
  {| users := users w; usage_quotas := usage_quotas w; usage_logs := usage_logs w;
     voice_presets := voice_presets w; current_timestamp := current_timestamp w;
     db_faults := faults; db_trace := trace; clock_ms := clock_ms w;
     remote := remote w; fetch_trace := fetch_trace w; console := console w;
     sent := sent w; rate_limit_hits := rate_limit_hits w |}.

Definition set_usage_logs (w : world) (logs : list usage_log) : world :=
  {| users := users w; usage_quotas := usage_quotas w; usage_logs := logs;
     voice_presets := voice_presets w; current_timestamp := current_timestamp w;
     db_faults := db_faults w; db_trace := db_trace w; clock_ms := clock_ms w;
     remote := remote w; fetch_trace := fetch_trace w; console := console w;
     sent := sent w; rate_limit_hits := rate_limit_hits w |}.

Definition set_console (w : world) (lines : list string) : world :=
  {| users := users w; usage_quotas := usage_quotas w; usage_logs := usage_logs w;
     voice_presets := voice_presets w; current_timestamp := current_timestamp w;
     db_faults := db_faults w; db_trace := db_trace w; clock_ms := clock_ms w;
     remote := remote w; fetch_trace := fetch_trace w; console := lines;
     sent := sent w; rate_limit_hits := rate_limit_hits w |}.

Definition set_sent (w : world) (rs : list http_response) : world :=
  {| users := users w; usage_quotas := usage_quotas w; usage_logs := usage_logs w;
     voice_presets := voice_presets w; current_timestamp := current_timestamp w;
     db_faults := db_faults w; db_trace := db_trace w; clock_ms := clock_ms w;
     remote := remote w; fetch_trace := fetch_trace w; console := console w;
     sent := rs; rate_limit_hits := rate_limit_hits w |}.

Definition set_fetch (w : world) (now : Z) (calls : list fetch_call) : world :=
  {| users := users w; usage_quotas := usage_quotas w; usage_logs := usage_logs w;
     voice_presets := voice_presets w; current_timestamp := current_timestamp w;
     db_faults := db_faults w; db_trace := db_trace w; clock_ms := now;
     remote := remote w; fetch_trace := calls; console := console w;
     sent := sent w; rate_limit_hits := rate_limit_hits w |}.

Definition set_rate_limit_hits (w : world) (hits : gmap (string * string) (Z * Z)) : world :=
  {| users := users w; usage_quotas := usage_quotas w; usage_logs := usage_logs w;
     voice_presets := voice_presets w; current_timestamp := current_timestamp w;
     db_faults := db_faults w; db_trace := db_trace w; clock_ms := clock_ms w;
     remote := remote w; fetch_trace := fetch_trace w; console := console w;
     sent := sent w; rate_limit_hits := hits |}.

Definition set_remote (w : world) (o : remote_outcome) : world :=
  {| users := users w; usage_quotas := usage_quotas w; usage_logs := usage_logs w;
     voice_presets := voice_presets w; current_timestamp := current_timestamp w;
     db_faults := db_faults w; db_trace := db_trace w; clock_ms := clock_ms w;
     remote := o; fetch_trace := fetch_trace w; console := console w;
     sent := sent w; rate_limit_hits := rate_limit_hits w |}.

(** ** A state and exception monad for the async functions

    An [await]ed call either returns a value or throws; both leave a new
    world behind. *)
Inductive outcome (A : Type) : Type :=
  | Returns (a : A)
  | Throws (e : js_error).
Arguments Returns {A} a.
Arguments Throws {A} e.

Definition M (A : Type) : Type := world -> outcome A * world.

Definition ret {A} (a : A) : M A := fun w => (Returns a, w).

Definition throw {A} (e : js_error) : M A := fun w => (Throws e, w).

Definition bind {A B} (m : M A) (k : A -> M B) : M B :=
  fun w =>
    match m w with
    | (Returns a, w') => k a w'
    | (Throws e, w') => (Throws e, w')
    end.

(** [try { m } catch (error) { h error }] *)
Definition try_catch {A} (m : M A) (h : js_error -> M A) : M A :=
  fun w =>
    match m w with
    | (Returns a, w') => (Returns a, w')
    | (Throws e, w') => h e w'
    end.

Notation "'let*' x := m 'in' k" := (bind m (fun x => k))
  (at level 10, x name, m at level 100, k at level 200).
Notation "m ;;; k" := (bind m (fun _ => k))
  (at level 100, k at level 200, right associativity).

(** [console.error(label, error)]: one line on the operational log. *)
Definition console_line (label : string) (e : js_error) : string :=
  label +:+ " " +:+ err_name e +:+ ": " +:+ err_message e.

Definition console_error (label : string) (e : js_error) : M unit :=
  fun w => (Returns (), set_console w (console w ++ [console_line label e])).

(** [await pool.query(...)]: the statement is recorded; when the store is
    unavailable the promise rejects, otherwise [run] answers it on the
    tables ([None]: the store refuses the statement). *)
Definition pool_query {A} (q : db_query) (run : world -> option (A * world)) : M A :=
  fun w =>
    let w1 := set_db w (tail (db_faults w)) (db_trace w ++ [q]) in
    match db_faults w with
    | true :: _ => (Throws (Error "Connection terminated unexpectedly"), w1)
    | _ =>
        match run w1 with
        | Some (a, w2) => (Returns a, w2)
        | None => (Throws (Error "statement rejected by the database"), w1)
        end
    end.

Definition select {A} (rows : world -> A) : world -> option (A * world) :=
  fun w => Some (rows w, w).

(** ** Quota checking (lines 1591-1639) *)

Record quota_check : Type := QuotaCheck {
  allowed : bool;
  currentUsage : option Z;
  limit : option Z;
  reason : option string
}.

Definition deny (why : string) : quota_check :=
  {| allowed := false; currentUsage := None; limit := None; reason := Some why |}.

(** The rows that the COUNT query at lines 1608-1612 counts. *)
Definition counted (userId : Z) (featureType : string) (now : timestamp)
    (r : usage_log) : bool :=
  bool_decide (user_id r = Some userId)
  && bool_decide (feature_type r = featureType)
  && bool_decide (success r = Some true)
  && ts_leb (date_trunc_month now) (created_at r).

(** [parseInt(usage.rows[0].count)]: the count arrives as the decimal text
    of a natural number and is read back as that number. *)
Definition usage_count (userId : Z) (featureType : string) (w : world) : Z :=
  Z.of_nat (length (filter (fun r => counted userId featureType (current_timestamp w) r = true)
                           (usage_logs w))).

(** The [switch] at lines 1617-1627; [None] is its [default] branch. *)
Definition feature_limit (featureType : string) (quotaData : quota_row) : option Z :=
  if bool_decide (featureType = "script") then Some (monthly_script_limit quotaData)
  else if bool_decide (featureType = "hooks") then Some (monthly_hooks_limit quotaData)
  else if bool_decide (featureType = "titles") then Some (monthly_titles_limit quotaData)
  else if bool_decide (featureType = "outline") then Some (monthly_outline_limit quotaData)
  else if bool_decide (featureType = "description") then Some (monthly_description_limit quotaData)
  else if bool_decide (featureType = "tags") then Some (monthly_tags_limit quotaData)
  else if bool_decide (featureType = "thumbnail") then Some (monthly_thumbnail_limit quotaData)
  else if bool_decide (featureType = "ctas") then Some (monthly_ctas_limit quotaData)
  else None.

Definition limit_reached_message (lim : Z) : string :=
  "Monthly limit of " +:+ pretty lim +:+ " reached".

(** The object returned at lines 1629-1634. *)
Definition verdict (current lim : Z) : quota_check :=
  {| allowed := bool_decide (current < lim);
     currentUsage := Some current;
     limit := Some lim;
     reason := if bool_decide (current >= lim)
               then Some (limit_reached_message lim) else None |}.

(** The body of the [try] block. *)
Definition checkQuota_body (userId : Z) (featureType : string) : M quota_check :=
  let* user := pool_query (SelectUserAccessLevel userId)
                 (select (fun w => option_list (users w !! userId))) in
  match user with
  | [] => ret (deny "User not found")
  | user0 :: _ =>
      let accessLevel := access_level user0 in
      let* quota := pool_query (SelectQuota accessLevel)
                      (select (fun w => option_list (usage_quotas w !! accessLevel))) in
      match quota with
      | [] => ret (deny "No quota found")
      | quotaData :: _ =>
          if negb (bool_decide (featureType ∈ features_enabled quotaData)) then
            ret (deny "Feature not available in your plan")
          else
            let* current := pool_query (CountUsage userId featureType)
                              (select (usage_count userId featureType)) in
            match feature_limit featureType quotaData with
            | None => ret (deny "Unknown feature type")
            | Some lim => ret (verdict current lim)
            end
      end
  end.

Definition checkQuota (userId : Z) (featureType : string) : M quota_check :=
  try_catch (checkQuota_body userId featureType)
    (fun error =>
       console_error "Quota check error:" error ;;;
       ret (deny "Quota check failed")).

(** The reasons a denial can carry when the evaluation itself did not
    fail. *)
Definition policy_reason (why : string) : Prop :=
  why ∈ ["User not found"; "No quota found"; "Feature not available in your plan";
         "Unknown feature type"]
  \/ exists lim, why = limit_reached_message lim.

(** ** Usage logging (lines 1641-1651) *)

(** Parameter binding of a call: a missing argument is [undefined],
    arguments beyond the parameter list are dropped, and a default value
    replaces [undefined] only. *)
Definition argument (args : list js_value) (i : nat) : js_value :=
  default VUndefined (args !! i).

Definition or_default (v d : js_value) : js_value :=
  match v with VUndefined => d | _ => v end.

(** What the store makes of a query parameter for a column of the given
    type: [Some None] is SQL [NULL], [None] a value it refuses.  A
    JavaScript value of another type than the column's counts as refused;
    no call in the source passes one. *)
Definition as_integer (v : js_value) : option (option Z) :=
  match v with
  | VNum n => Some (Some n)
  | VNull | VUndefined => Some None
  | _ => None
  end.

Definition as_boolean (v : js_value) : option (option bool) :=
  match v with
  | VBool b => Some (Some b)
  | VNull | VUndefined => Some None
  | _ => None
  end.

Definition as_text (v : js_value) : option (option string) :=
  match v with
  | VStr s => Some (Some s)
  | VNull | VUndefined => Some None
  | _ => None
  end.

(** The foreign key [user_id INTEGER REFERENCES users(id)]. *)
Definition references_user (w : world) (uid : option Z) : bool :=
  match uid with
  | Some u => bool_decide (is_Some (users w !! u))
  | None => true
  end.

(** The [INSERT INTO usage_logs] of lines 1644-1647 on the tables:
    [feature_type] is [NOT NULL], [user_id] references [users(id)], and
    [created_at] takes its default.  The row goes to the end of the log. *)
Definition insert_usage_log
    (userId featureType success processingTime tokensUsed errorMessage : js_value)
    (metadata_json : option json) (w : world) : option (unit * world) :=
  uid ← as_integer userId;
  ft ← as_text featureType;
  feature ← ft;
  ok ← as_boolean success;
  ms ← as_integer processingTime;
  tokens ← as_integer tokensUsed;
  msg ← as_text errorMessage;
  if references_user w uid then
    Some ((), set_usage_logs w
                (usage_logs w ++
                 [{| user_id := uid; feature_type := feature; tokens_used := tokens;
                     processing_time_ms := ms; success := ok; error_message := msg;
                     metadata := metadata_json;
                     created_at := current_timestamp w |}]))
  else None.

Definition logUsage (args : list js_value) : M unit :=
  let userId := argument args 0 in
  let featureType := argument args 1 in
  let success := or_default (argument args 2) (VBool true) in
  let processingTime := or_default (argument args 3) (VNum 0) in
  let tokensUsed := or_default (argument args 4) (VNum 0) in
  let errorMessage := or_default (argument args 5) VNull in
  let metadata := or_default (argument args 6) (VObj []) in
  try_catch
    (pool_query InsertUsageLog
       (insert_usage_log userId featureType success processingTime tokensUsed
          errorMessage (JSON_stringify metadata)))
    (fun error => console_error "Usage logging error:" error).

(** ** Voice prompt (lines 1653-1665)

    The handlers pass [voicePreset || 'default'], a string.  The pure
    [getVoicePromptAdditions] (lines 1668-1749) only selects prompt text and
    is left out, as is the text of the prompt templates. *)

Definition default_voice_prompt : string :=
  "You are an expert YouTube content creator focused on creating viral, engaging content.".

Definition getVoicePrompt (voicePreset : js_value) : M string :=
  match voicePreset with
  | VStr name =>
      try_catch
        (let* voice := pool_query (SelectVoicePreset name)
                         (select (fun w => option_list (voice_presets w !! name))) in
         match voice with
         | [] => ret default_voice_prompt
         | system_prompt :: _ => ret system_prompt
         end)
        (fun error =>
           console_error "Voice prompt error:" error ;;;
           ret default_voice_prompt)
  | _ => ret default_voice_prompt
  end.

(** ** Lexical scope

    A scope lists the bindings visible at a point of the program, innermost
    first.  Reading an identifier that no enclosing scope declares throws a
    [ReferenceError]. *)
Definition scope : Type := list (string * js_value).

(** The names declared at module level (lines 1387-1668) and the globals
    of the runtime that the file uses. *)
Definition module_scope : scope :=
  (fun x => (x, VFunction x)) <$>
    ["express"; "cors"; "bcrypt"; "jwt"; "Pool"; "rateLimit"; "path"; "app";
     "PORT"; "pool"; "authLimiter"; "apiLimiter"; "generationLimiter";
     "initDB"; "authenticateToken"; "checkQuota"; "logUsage"; "getVoicePrompt";
     "getVoicePromptAdditions"; "require"; "process"; "console"; "fetch";
     "JSON"; "Date"; "Math"; "parseInt"; "Error"; "__dirname"].

Fixpoint scope_lookup (sc : scope) (x : string) : option js_value :=
  match sc with
  | [] => None
  | (y, v) :: rest => if bool_decide (x = y) then Some v else scope_lookup rest x
  end.

Definition identifier (sc : scope) (x : string) : M js_value :=
  match scope_lookup sc x with
  | Some v => ret v
  | None => throw (ReferenceError (x +:+ " is not defined"))
  end.

(** The object literal [{ a, b, ... }]: each name is read in turn. *)
Fixpoint object_shorthand (sc : scope) (names : list string)
    : M (list (string * js_value)) :=
  match names with
  | [] => ret []
  | x :: rest =>
      let* v := identifier sc x in
      let* vs := object_shorthand sc rest in
      ret ((x, v) :: vs)
  end.

(** [const { a, b, ... } = req.body]: a parameter the body lacks is
    [undefined]. *)
Definition body_field (body : gmap string string) (x : string) : js_value :=
  match body !! x with Some s => VStr s | None => VUndefined end.

Definition destructure (body : gmap string string) (names : list string) : scope :=
  (fun x => (x, body_field body x)) <$> names.

(** ** String built-ins

    Strings are byte strings; white space is the ASCII part of what
    JavaScript's [\s] and [trim] recognise. *)
Definition is_white_space (c : ascii) : bool :=
  bool_decide (c ∈ [" "%char; "009"%char; "010"%char; "011"%char; "012"%char; "013"%char]).

Fixpoint trim_start (s : string) : string :=
  match s with
  | String c rest => if is_white_space c then trim_start rest else s
  | EmptyString => EmptyString
  end.

(** [s.trim()] *)
Definition trim (s : string) : string :=
  String.rev (trim_start (String.rev (trim_start s))).

(** [s.replace(/pat\n?/g, "")] for a literal, non-empty [pat]: every match,
    found left to right, is removed together with one line feed that
    follows it.  [skip] counts the characters of the current match that are
    still to be dropped. *)
Fixpoint remove_all (pat : string) (skip : nat) (s : string) : string :=
  match s with
  | EmptyString => EmptyString
  | String c rest =>
      match skip with
      | S k => remove_all pat k rest
      | O =>
          if String.prefix pat s then
            let n := String.length pat in
            let line_feed :=
              match String.get n s with Some "010"%char => 1%nat | _ => 0%nat end in
            remove_all pat (n - 1 + line_feed) rest
          else String c (remove_all pat 0 rest)
      end
  end.

(** Lines 2121 and 2187. *)
Definition strip_code_fences (responseText : string) : string :=
  remove_all "```" 0 (remove_all "```json" 0 responseText).

(** [s.trim().split(/\s+/).length]: the number of maximal runs of
    characters other than white space, and 1 when there is none (the split
    of the empty string is one empty string). *)
Fixpoint count_runs (in_run : bool) (s : string) : Z :=
  match s with
  | EmptyString => 0
  | String c rest =>
      if is_white_space c then count_runs false rest
      else (if in_run then 0 else 1) + count_runs true rest
  end.

Definition word_count (s : string) : Z :=
  let n := count_runs false s in
  if bool_decide (n = 0) then 1 else n.

(** [Math.round((words / 150) * 100) / 100], in hundredths of a minute:
    two thirds of [words], rounded to the nearest integer. *)
Definition estimated_duration_x100 (words : Z) : Z := (4 * words + 3) `div` 6.

(** ** Effects of a handler *)

Definition Date_now : M Z := fun w => (Returns (clock_ms w), w).

(** [res.status(code).json(body)] *)
Definition res_json (code : Z) (body : response_body) : M unit :=
  fun w => (Returns (), set_sent w (sent w ++ [{| res_status := code; res_body := body |}])).

(** [await fetch("https://api.anthropic.com/v1/messages", ...)]: the call
    is recorded and the service answers after its latency, or the promise
    rejects. *)
Definition fetch (call : fetch_call) : M (Z * remote_body) :=
  fun w =>
    let w1 := set_fetch w (clock_ms w) (fetch_trace w ++ [call]) in
    match remote w with
    | FetchRejects e => (Throws e, w1)
    | FetchResponds status body latency =>
        (Returns (status, body), set_fetch w (clock_ms w + latency) (fetch_trace w ++ [call]))
    end.

(** [response.ok] *)
Definition response_ok (status : Z) : bool :=
  bool_decide (200 <= status <= 299).

(** [(await response.json()).content[0].text] *)
Definition content_text (body : remote_body) : M string :=
  match body with
  | BodyText text => ret text
  | BodyMalformed e => throw e
  end.

(** ** Content generation endpoints (lines 1934-2200, and 6-386 of the
    add-on routes)

    The add-on routes are the same handlers; only the argument lists of
    their [logUsage] calls differ (lines 115, 126, 288, 294, 377, 383). *)
Inductive source_copy : Type :=
  | Server       (* lines 1386-2294 *)
  | AddOnRoutes. (* lines 1-477 *)

(** The arguments that come between [tokensUsed] and the metadata object
    in a [logUsage] call. *)
Definition after_tokens (copy : source_copy) (message : js_value) : list js_value :=
  match copy with
  | Server => [message]
  | AddOnRoutes => [VNull; VNull; message]
  end.

Definition req_value (userId : Z) (body : gmap string string) : js_value :=
  VObj [("user", VObj [("userId", VNum userId)]);
        ("body", VObj ((fun kv => (kv.1, VStr kv.2)) <$> map_to_list body))].

Section Handlers.

(** [JSON.parse]: [None] when the built-in throws a [SyntaxError]. *)
Variable JSON_parse : string -> option json.

Variable copy : source_copy.

Definition script_parameters : list string :=
  ["topic"; "audience"; "duration"; "tone"; "videoType"; "keywords";
   "customPrompt"; "voicePreset"].

Definition script_metadata : list string :=
  ["topic"; "audience"; "duration"; "tone"; "videoType"; "voicePreset"].

(** The bindings a handler sees outside its [try] block: its own
    parameters and locals, then the module. *)
Definition script_handler_scope (startTime userId : Z) (body : gmap string string) : scope :=
  [("startTime", VNum startTime); ("req", req_value userId body);
   ("res", VFunction "res")] ++ module_scope.

Definition handler_scope (userId : Z) (body : gmap string string) : scope :=
  [("req", req_value userId body); ("res", VFunction "res")] ++ module_scope.

(** The binding of a [catch (error)] clause. *)
Definition caught (error : js_error) : string * js_value :=
  ("error", VObj [("message", VStr (err_message error))]).

(** Lines 1937-2043. *)
Definition generate_script_try (startTime userId : Z) (body : gmap string string) : M unit :=
  let try_scope := destructure body script_parameters
                     ++ script_handler_scope startTime userId body in
  let* quotaCheck := checkQuota userId "script" in
  if negb (allowed quotaCheck) then
    res_json 429 (ErrorBody (reason quotaCheck))
  else
    let* voicePreset := identifier try_scope "voicePreset" in
    let* voicePrompt := getVoicePrompt (js_or voicePreset (VStr "default")) in
    (* the prompt template calls [duration.split('-')] *)
    let* duration := identifier try_scope "duration" in
    match duration with
    | VStr _ => ret ()
    | _ => throw (TypeError "Cannot read properties of undefined (reading 'split')")
    end ;;;
    let* response := fetch {| fc_max_tokens := 2000; fc_voice_prompt := Some voicePrompt |} in
    (if negb (response_ok response.1)
     then throw (Error ("API request failed: " +:+ pretty response.1))
     else ret ()) ;;;
    let* scriptContent := content_text response.2 in
    let* now := Date_now in
    let processingTime := now - startTime in
    let words := word_count scriptContent in
    let estimatedDuration := estimated_duration_x100 words in
    let* meta := object_shorthand try_scope script_metadata in
    logUsage ([VNum userId; VStr "script"; VBool true; VNum processingTime; VNum words]
              ++ after_tokens copy VNull ++ [VObj meta]) ;;;
    res_json 200 (ScriptBody scriptContent words estimatedDuration processingTime).

(** Lines 2045-2051. *)
Definition generate_script_catch (startTime userId : Z) (body : gmap string string)
    (error : js_error) : M unit :=
  let catch_scope := caught error :: script_handler_scope startTime userId body in
  let* now := Date_now in
  let processingTime := now - startTime in
  console_error "Script generation error:" error ;;;
  let* meta := object_shorthand catch_scope script_metadata in
  logUsage ([VNum userId; VStr "script"; VBool false; VNum processingTime; VNum 0]
            ++ after_tokens copy (VStr (err_message error)) ++ [VObj meta]) ;;;
  res_json 500 (ErrorBody (Some "Script generation failed")).

Definition generate_script (userId : Z) (body : gmap string string) : M unit :=
  let* startTime := Date_now in
  try_catch (generate_script_try startTime userId body)
            (generate_script_catch startTime userId body).

(** Lines 2119-2123 and 2185-2189: the text of the reply, trimmed, without
    its code fences, parsed. *)
Definition parse_structured (body : remote_body) : M json :=
  let* text := content_text body in
  let responseText := strip_code_fences (trim text) in
  match JSON_parse responseText with
  | Some data => ret data
  | None => throw (SyntaxError "Unexpected token in JSON")
  end.

Definition hooks_parameters : list string :=
  ["topic"; "audience"; "videoType"; "tone"; "voicePreset"].

Definition hooks_metadata : list string :=
  ["topic"; "audience"; "videoType"; "tone"].

(** Lines 2055-2127. *)
Definition generate_hooks_try (userId : Z) (body : gmap string string) : M unit :=
  let try_scope := destructure body hooks_parameters ++ handler_scope userId body in
  let* quotaCheck := checkQuota userId "hooks" in
  if negb (allowed quotaCheck) then
    res_json 429 (ErrorBody (reason quotaCheck))
  else
    let* voicePreset := identifier try_scope "voicePreset" in
    let* voicePrompt := getVoicePrompt (js_or voicePreset (VStr "default")) in
    let* response := fetch {| fc_max_tokens := 1000; fc_voice_prompt := Some voicePrompt |} in
    let* hooksData := parse_structured response.2 in
    let* meta := object_shorthand try_scope hooks_metadata in
    logUsage ([VNum userId; VStr "hooks"; VBool true; VNum 0; VNum 0]
              ++ after_tokens copy VNull ++ [VObj meta]) ;;;
    res_json 200 (HooksBody hooksData).

(** Lines 2129-2133. *)
Definition generate_hooks_catch (userId : Z) (body : gmap string string)
    (error : js_error) : M unit :=
  let catch_scope := caught error :: handler_scope userId body in
  console_error "Hooks generation error:" error ;;;
  let* meta := object_shorthand catch_scope hooks_metadata in
  logUsage ([VNum userId; VStr "hooks"; VBool false; VNum 0; VNum 0]
            ++ after_tokens copy (VStr (err_message error)) ++ [VObj meta]) ;;;
  res_json 500 (ErrorBody (Some "Hooks generation failed")).

Definition generate_hooks (userId : Z) (body : gmap string string) : M unit :=
  try_catch (generate_hooks_try userId body) (generate_hooks_catch userId body).

Definition titles_parameters : list string := ["topic"; "audience"; "videoType"].

(** Lines 2137-2193. *)
Definition generate_titles_try (userId : Z) (body : gmap string string) : M unit :=
  let try_scope := destructure body titles_parameters ++ handler_scope userId body in
  let* quotaCheck := checkQuota userId "titles" in
  if negb (allowed quotaCheck) then
    res_json 429 (ErrorBody (reason quotaCheck))
  else
    let* response := fetch {| fc_max_tokens := 800; fc_voice_prompt := None |} in
    let* titlesData := parse_structured response.2 in
    let* meta := object_shorthand try_scope titles_parameters in
    logUsage ([VNum userId; VStr "titles"; VBool true; VNum 0; VNum 0]
              ++ after_tokens copy VNull ++ [VObj meta]) ;;;
    res_json 200 (TitlesBody titlesData).

(** Lines 2195-2199. *)
Definition generate_titles_catch (userId : Z) (body : gmap string string)
    (error : js_error) : M unit :=
  let catch_scope := caught error :: handler_scope userId body in
  console_error "Titles generation error:" error ;;;
  let* meta := object_shorthand catch_scope titles_parameters in
  logUsage ([VNum userId; VStr "titles"; VBool false; VNum 0; VNum 0]
            ++ after_tokens copy (VStr (err_message error)) ++ [VObj meta]) ;;;
  res_json 500 (ErrorBody (Some "Titles generation failed")).

Definition generate_titles (userId : Z) (body : gmap string string) : M unit :=
  try_catch (generate_titles_try userId body) (generate_titles_catch userId body).

End Handlers.

(** The three generation routes by the feature they meter. *)
Inductive generation : Type := Script | Hooks | Titles.

Definition feature_of (g : generation) : string :=
  match g with
  | Script => "script"
  | Hooks => "hooks"
  | Titles => "titles"
  end.

Definition generate (JSON_parse : string -> option json) (copy : source_copy)
    (g : generation) : Z -> gmap string string -> M unit :=
  match g with
  | Script => generate_script copy
  | Hooks => generate_hooks JSON_parse copy
  | Titles => generate_titles JSON_parse copy
  end.

(** ** A JSON reader

    The theorems below hold for whatever [JSON.parse] does; this reader
    instantiates it where a concrete reply is run.  It reads the JSON
    grammar with integer numbers and the two-character escapes, and
    refuses fractions, exponents and [\u] escapes. *)
Module Reader.

Definition quote : ascii := "034"%char.
Definition backslash : ascii := "092"%char.

Definition json_space (c : ascii) : bool :=
  bool_decide (c ∈ [" "%char; "009"%char; "010"%char; "013"%char]).

Fixpoint skip_spaces (s : string) : string :=
  match s with
  | String c rest => if json_space c then skip_spaces rest else s
  | EmptyString => EmptyString
  end.

Fixpoint drop_chars (n : nat) (s : string) : string :=
  match n, s with
  | S k, String _ rest => drop_chars k rest
  | _, _ => s
  end.

Definition literal (lit : string) (v : json) (s : string) : option (json * string) :=
  if String.prefix lit s then Some (v, drop_chars (String.length lit) s) else None.

Definition unescape (c : ascii) : option ascii :=
  if bool_decide (c = quote) then Some quote
  else if bool_decide (c = backslash) then Some backslash
  else if bool_decide (c = "/"%char) then Some "/"%char
  else if bool_decide (c = "b"%char) then Some "008"%char
  else if bool_decide (c = "f"%char) then Some "012"%char
  else if bool_decide (c = "n"%char) then Some "010"%char
  else if bool_decide (c = "r"%char) then Some "013"%char
  else if bool_decide (c = "t"%char) then Some "009"%char
  else None.

(** The characters of a string literal after its opening quote. *)
Fixpoint string_chars (s : string) : option (string * string) :=
  match s with
  | EmptyString => None
  | String c rest =>
      if bool_decide (c = quote) then Some (EmptyString, rest)
      else if bool_decide (c = backslash) then
        match rest with
        | String e rest' =>
            match unescape e, string_chars rest' with
            | Some c', Some (text, after) => Some (String c' text, after)
            | _, _ => None
            end
        | EmptyString => None
        end
      else if (nat_of_ascii c <? 32)%nat then None
      else
        match string_chars rest with
        | Some (text, after) => Some (String c text, after)
        | None => None
        end
  end.

Fixpoint digits (acc : Z) (s : string) : Z * string :=
  match s with
  | String c rest =>
      match Ascii.is_nat c with
      | Some d => digits (10 * acc + Z.of_nat d) rest
      | None => (acc, s)
      end
  | EmptyString => (acc, s)
  end.

Definition starts_fraction (s : string) : bool :=
  match s with
  | String c _ => bool_decide (c ∈ ["."%char; "e"%char; "E"%char])
  | EmptyString => false
  end.

(** An integer: [0], or a non-zero digit followed by digits. *)
Definition natural (s : string) : option (Z * string) :=
  match s with
  | String c rest =>
      match Ascii.is_nat c with
      | Some O =>
          match rest with
          | String c' _ =>
              match Ascii.is_nat c' with
              | Some _ => None
              | None => if starts_fraction rest then None else Some (0, rest)
              end
          | EmptyString => Some (0, rest)
          end
      | Some d =>
          let '(n, after) := digits (Z.of_nat d) rest in
          if starts_fraction after then None else Some (n, after)
      | None => None
      end
  | EmptyString => None
  end.

Definition number (s : string) : option (json * string) :=
  match s with
  | String "-"%char rest => '(n, after) ← natural rest; Some (JNum (- n), after)
  | _ => '(n, after) ← natural s; Some (JNum n, after)
  end.

Fixpoint value (fuel : nat) (s : string) : option (json * string) :=
  match fuel with
  | O => None
  | S fuel' =>
      match skip_spaces s with
      | EmptyString => None
      | String c rest as text =>
          if bool_decide (c = quote) then
            '(str, after) ← string_chars rest; Some (JStr str, after)
          else if bool_decide (c = "["%char) then
            match skip_spaces rest with
            | String "]"%char after => Some (JArr [], after)
            | _ => '(items, after) ← elements fuel' rest; Some (JArr items, after)
            end
          else if bool_decide (c = "{"%char) then
            match skip_spaces rest with
            | String "}"%char after => Some (JObj [], after)
            | _ => '(fields, after) ← members fuel' rest; Some (JObj fields, after)
            end
          else if bool_decide (c = "n"%char) then literal "null" JNull text
          else if bool_decide (c = "t"%char) then literal "true" (JBool true) text
          else if bool_decide (c = "f"%char) then literal "false" (JBool false) text
          else number text
      end
  end
with elements (fuel : nat) (s : string) : option (list json * string) :=
  match fuel with
  | O => None
  | S fuel' =>
      '(v, after) ← value fuel' s;
      match skip_spaces after with
      | String ","%char more => '(vs, rest) ← elements fuel' more; Some (v :: vs, rest)
      | String "]"%char rest => Some ([v], rest)
      | _ => None
      end
  end
with members (fuel : nat) (s : string) : option (list (string * json) * string) :=
  match fuel with
  | O => None
  | S fuel' =>
      match skip_spaces s with
      | String c rest =>
          if bool_decide (c = quote) then
            '(key, after) ← string_chars rest;
            match skip_spaces after with
            | String ":"%char more =>
                '(v, after') ← value fuel' more;
                match skip_spaces after' with
                | String ","%char more' =>
                    '(fields, rest') ← members fuel' more'; Some ((key, v) :: fields, rest')
                | String "}"%char rest' => Some ([(key, v)], rest')
                | _ => None
                end
            | _ => None
            end
          else None
      | EmptyString => None
      end
  end.

Definition parse (text : string) : option json :=
  '(v, after) ← value (2 * String.length text + 2) text;
  match skip_spaces after with
  | EmptyString => Some v
  | _ => None
  end.

End Reader.

(** ** Seeding of the quota policies (lines 1518-1531) *)

Definition all_features : list string :=
  ["script"; "hooks"; "titles"; "outline"; "description"; "tags"; "thumbnail"; "ctas"].

(** The [VALUES] list. *)
Definition seeded_quotas : list (string * quota_row) :=
  [("free", QuotaRow 5 10 20 5 5 10 10 10 all_features);
   ("premium", QuotaRow 50 100 200 50 50 100 100 100 all_features);
   ("pro", QuotaRow 200 400 800 200 200 400 400 400 all_features)].

Definition set_monthly_script_limit (row : quota_row) (n : Z) : quota_row :=
  {| monthly_script_limit := n;
     monthly_hooks_limit := monthly_hooks_limit row;
     monthly_titles_limit := monthly_titles_limit row;
     monthly_outline_limit := monthly_outline_limit row;
     monthly_description_limit := monthly_description_limit row;
     monthly_tags_limit := monthly_tags_limit row;
     monthly_thumbnail_limit := monthly_thumbnail_limit row;
     monthly_ctas_limit := monthly_ctas_limit row;
     features_enabled := features_enabled row |}.

(** [INSERT ... ON CONFLICT (access_level) DO UPDATE SET
    monthly_script_limit = EXCLUDED.monthly_script_limit] for one row. *)
Definition upsert_quota (table : gmap string quota_row) (tier : string)
    (excluded : quota_row) : gmap string quota_row :=
  match table !! tier with
  | None => <[tier := excluded]> table
  | Some existing =>
      <[tier := set_monthly_script_limit existing (monthly_script_limit excluded)]> table
  end.

Definition seed_usage_quotas (table : gmap string quota_row) : gmap string quota_row :=
  foldl (fun t row => upsert_quota t row.1 row.2) table seeded_quotas.

(** ** Routes and rate limiting (lines 1419-1436, 1575-1589, 1753-2280) *)

Inductive middleware : Type :=
  | authenticateToken
  | authLimiter
  | apiLimiter
  | generationLimiter.

#[global] Instance middleware_eq_dec : EqDecision middleware.
Proof. solve_decision. Defined.

Record rate_limit_options : Type := RateLimit {
  windowMs : Z;
  max : Z;
  message : string
}.

Definition limiter_name (m : middleware) : string :=
  match m with
  | authenticateToken => "authenticateToken"
  | authLimiter => "authLimiter"
  | apiLimiter => "apiLimiter"
  | generationLimiter => "generationLimiter"
  end.

Definition limiter_options (m : middleware) : option rate_limit_options :=
  match m with
  | authenticateToken => None
  | authLimiter => Some (RateLimit (15 * 60 * 1000) 5 "Too many authentication attempts")
  | apiLimiter => Some (RateLimit (60 * 1000) 30 "Rate limit exceeded")
  | generationLimiter => Some (RateLimit (60 * 1000) 10 "Generation rate limit exceeded")
  end.

Inductive endpoint : Type :=
  | Health | Register | Login | Profile
  | GenerateScript | GenerateHooks | GenerateTitles
  | SaveScript | SavedScripts | DeleteScript | VoicePresets | StaticFiles.

Record route : Type := Route {
  route_method : string;
  route_path : string;
  route_middleware : list middleware;
  route_endpoint : endpoint
}.

#[global] Instance endpoint_eq_dec : EqDecision endpoint.
Proof. solve_decision. Defined.

#[global] Instance route_eq_dec : EqDecision route.
Proof. solve_decision. Defined.

(** Every [app.get], [app.post] and [app.delete] of the server. *)
Definition routes : list route :=
  [Route "GET" "/health" [] Health;
   Route "POST" "/api/auth/register" [authLimiter] Register;
   Route "POST" "/api/auth/login" [authLimiter] Login;
   Route "GET" "/api/user/profile" [authenticateToken] Profile;
   Route "POST" "/api/generate/script"
     [authenticateToken; apiLimiter; generationLimiter] GenerateScript;
   Route "POST" "/api/generate/hooks"
     [authenticateToken; apiLimiter; generationLimiter] GenerateHooks;
   Route "POST" "/api/generate/titles"
     [authenticateToken; apiLimiter; generationLimiter] GenerateTitles;
   Route "POST" "/api/scripts/save" [authenticateToken] SaveScript;
   Route "GET" "/api/scripts/saved" [authenticateToken] SavedScripts;
   Route "DELETE" "/api/scripts/:id" [authenticateToken] DeleteScript;
   Route "GET" "/api/voice-presets" [] VoicePresets;
   Route "GET" "*" [] StaticFiles].

(** The middleware of the three generation routes. *)
Definition generation_chain : list middleware :=
  [authenticateToken; apiLimiter; generationLimiter].

(** What [jwt.verify] makes of the [Authorization] header. *)
Inductive bearer : Type :=
  | NoToken
  | InvalidToken
  | ValidToken (userId : Z).

Record request : Type := Request {
  authorization : bearer;
  client : string;             (* the identity the limiters key on *)
  req_user : option Z;         (* [req.user.userId], set by [authenticateToken] *)
  req_body : gmap string string
}.

Definition set_req_user (req : request) (userId : Z) : request :=
  {| authorization := authorization req; client := client req;
     req_user := Some userId; req_body := req_body req |}.

(** Modelled from the spec: the middleware that [rateLimit(options)] of the
    express-rate-limit package returns is not part of the repository.
    Following section 4.3 it is a fixed-window counter keyed by client
    identity: the first hit of a client opens a window of [windowMs], every
    hit in the window is counted, and a hit beyond [max] is answered with
    status 429 and the configured message instead of calling [next].
    The result is [true] when [next] is called. *)
Definition rate_limit (m : middleware) (options : rate_limit_options)
    (req : request) : M bool :=
  fun w =>
    let key := (limiter_name m, client req) in
    let now := clock_ms w in
    let hits :=
      match rate_limit_hits w !! key with
      | Some (n, window_end) =>
          if bool_decide (now < window_end) then (n + 1, window_end)
          else (1, now + windowMs options)
      | None => (1, now + windowMs options)
      end in
    let w1 := set_rate_limit_hits w (<[key := hits]> (rate_limit_hits w)) in
    if bool_decide (hits.1 <= max options) then (Returns true, w1)
    else (Returns false,
          set_sent w1 (sent w1 ++ [{| res_status := 429;
                                      res_body := ErrorBody (Some (message options)) |}])).

(** One middleware: [Some req'] when it calls [next], [None] when it
    answers the request itself.  [authenticateToken] is lines 1576-1589. *)
Definition run_middleware (m : middleware) (req : request) : M (option request) :=
  match limiter_options m with
  | Some options =>
      let* passed := rate_limit m options req in
      ret (if passed then Some req else None)
  | None =>
      match authorization req with
      | NoToken =>
          res_json 401 (ErrorBody (Some "Access token required")) ;;; ret None
      | InvalidToken =>
          res_json 403 (ErrorBody (Some "Invalid token")) ;;; ret None
      | ValidToken userId => ret (Some (set_req_user req userId))
      end
  end.

(** [app.METHOD(path, m1, ..., mk, handler)]. *)
Fixpoint through (chain : list middleware) (handler : request -> M unit)
    (req : request) : M unit :=
  match chain with
  | [] => handler req
  | m :: rest =>
      let* next := run_middleware m req in
      match next with
      | Some req' => through rest handler req'
      | None => ret ()
      end
  end.

(** An async handler reads [req.user.userId]. *)
Definition with_user (handler : Z -> gmap string string -> M unit) (req : request) : M unit :=
  match req_user req with
  | Some userId => handler userId (req_body req)
  | None => throw (TypeError "Cannot read properties of undefined (reading 'userId')")
  end.

(** The handlers of the three generation routes; the other endpoints are
    outside this development. *)
Definition generation_handler (JSON_parse : string -> option json) (e : endpoint)
    : option (request -> M unit) :=
  match e with
  | GenerateScript => Some (with_user (generate_script Server))
  | GenerateHooks => Some (with_user (generate_hooks JSON_parse Server))
  | GenerateTitles => Some (with_user (generate_titles JSON_parse Server))
  | _ => None
  end.

(** A request to the route of a generation endpoint, through the
    middleware the route table lists for it. *)
Definition serve (JSON_parse : string -> option json) (e : endpoint) (req : request)
    : option (M unit) :=
  r ← List.find (fun r => bool_decide (route_endpoint r = e)) routes;
  handler ← generation_handler JSON_parse e;
  Some (through (route_middleware r) handler req).

(** ** The monthly count, as the specification words it

    "Successful Usage Records for this user and feature type whose creation
    time falls within the current calendar month." *)
Definition successful_this_month (userId : Z) (featureType : string) (w : world)
    (r : usage_log) : Prop :=
  user_id r = Some userId /\ feature_type r = featureType /\ success r = Some true
  /\ same_month (created_at r) (current_timestamp w).

#[global] Instance successful_this_month_dec userId featureType w r :
  Decision (successful_this_month userId featureType w r).
Proof. unfold successful_this_month. apply _. Defined.


(** Records carry the time of their insertion, so none is dated after the
    store's clock. *)
Definition ledger_dated (w : world) : Prop :=
  ts_wf (current_timestamp w)
  /\ Forall (fun r => ts_wf (created_at r)
                      /\ ts_leb (created_at r) (current_timestamp w) = true)
            (usage_logs w).

#[global] Instance ledger_dated_dec w : Decision (ledger_dated w).
Proof. unfold ledger_dated. apply _. Defined.

(** The world after the statements [qs] have been answered. *)
Definition after_queries (w : world) (qs : list db_query) : world :=
  set_db w (drop (length qs) (db_faults w)) (db_trace w ++ qs).

(** Two worlds that differ at most in the state of the connection, the
    statement trace and the console. *)
Definition same_data (w w' : world) : Prop :=
  users w' = users w /\ usage_quotas w' = usage_quotas w
  /\ usage_logs w' = usage_logs w /\ voice_presets w' = voice_presets w
  /\ current_timestamp w' = current_timestamp w /\ clock_ms w' = clock_ms w
  /\ remote w' = remote w /\ fetch_trace w' = fetch_trace w
  /\ sent w' = sent w /\ rate_limit_hits w' = rate_limit_hits w.

(** The store answers the next [n] statements. *)
Definition available (n : nat) (w : world) : Prop :=
  Forall (fun fault => fault = false) (take n (db_faults w)).

#[global] Instance available_dec n w : Decision (available n w).
Proof. unfold available. apply _. Defined.

(** ** What a usage record keeps of the request

    The parameters that the metadata object literal of a route names, as
    far as the request supplied them. *)
Definition recorded_names (g : generation) : list string :=
  match g with
  | Script => script_metadata
  | Hooks => hooks_metadata
  | Titles => titles_parameters
  end.

Definition recorded_parameters (names : list string) (body : gmap string string) : json :=
  JObj (omap (fun k => (fun v => (k, JStr v)) <$> body !! k) names).

(** The record of a successful generation, as the server copy writes it:
    only the script route measures time and counts words. *)
Definition success_record (g : generation) (userId : Z) (body : gmap string string)
    (text : string) (latency : Z) (now : timestamp) : usage_log :=
  {| user_id := Some userId;
     feature_type := feature_of g;
     tokens_used := Some (match g with Script => word_count text | _ => 0 end);
     processing_time_ms := Some (match g with Script => latency | _ => 0 end);
     success := Some true;
     error_message := None;
     metadata := Some (recorded_parameters (recorded_names g) body);
     created_at := now |}.


(** What a handler may add to the world if it never completes its failure
    branch: records of successes, and answers other than 500. *)
Definition only_successes_added (w w' : world) : Prop :=
  (exists rows, usage_logs w' = usage_logs w ++ rows
                /\ Forall (fun r => success r = Some true) rows)
  /\ (exists answers, sent w' = sent w ++ answers
                      /\ Forall (fun a => res_status a <> 500) answers).

(** [m] adds nothing else, however it ends. *)
Definition keeps {A} (m : M A) : Prop :=
  forall w o w', m w = (o, w') -> only_successes_added w w'.


(** ** The claims about seeding and routing, as the specification words them *)

Definition limits (row : quota_row) : list Z :=
  [monthly_script_limit row; monthly_hooks_limit row; monthly_titles_limit row;
   monthly_outline_limit row; monthly_description_limit row; monthly_tags_limit row;
   monthly_thumbnail_limit row; monthly_ctas_limit row].

(** "Re-seeding never lowers any limit of an existing policy row." *)
Definition seeding_never_lowers_a_limit : Prop :=
  forall table tier row row',
    table !! tier = Some row ->
    seed_usage_quotas table !! tier = Some row' ->
    Forall2 Z.le (limits row) (limits row').


(** The policy row that seeding inserts for a tier, if any. *)
Fixpoint seeded_row (rows : list (string * quota_row)) (tier : string) : option quota_row :=
  match rows with
  | [] => None
  | (k, row) :: rest => if decide (k = tier) then Some row else seeded_row rest tier
  end.



(** ** Seeding of the voice presets (lines 1533-1560) *)

Definition double_quote : string := String "034" "".

(** The [VALUES] list: [name] and [system_prompt] of each row. *)
Definition seeded_voice_presets : list (string * string) :=
  [("default",
    ("You are an expert YouTube content creator with deep knowledge of "
     +:+ "viral content strategies."));
   ("conversational",
    ("Create content in a conversational, approachable tone. Use "
     +:+ double_quote +:+ "you" +:+ double_quote +:+ " and "
     +:+ double_quote +:+ "I" +:+ double_quote
     +:+ " language naturally. Include personal experiences and "
     +:+ "relatable examples."));
   ("brenda_lawrence",
    ("You are Brenda Lawrence - a business and executive coach, "
     +:+ "inspirational speaker, consultant, trainer, trusted advisor, and "
     +:+ "safe space creator with a strong focus on process improvement and "
     +:+ "30+ years of operational excellence. You optimize both the LEADER "
     +:+ "AND the business systems simultaneously. Your unique positioning "
     +:+ "combines leadership evolution + process optimization + systems "
     +:+ "thinking."));
   ("motivational",
    ("Create motivational content that inspires action. Focus on "
     +:+ "overcoming challenges, achieving goals, and building confidence. "
     +:+ "Use powerful success stories and transformational examples."));
   ("educational",
    ("Break down complex concepts into digestible steps. Use examples "
     +:+ "and analogies to explain difficult topics. Focus on practical "
     +:+ "learning outcomes and encourage deeper understanding."));
   ("casual_creator",
    ("Keep content light and entertaining while informative. Connect "
     +:+ "with audience through shared experiences. Maintain authenticity "
     +:+ "and genuine personality."))].

(** [INSERT ... ON CONFLICT (name) DO UPDATE SET ..., system_prompt =
    EXCLUDED.system_prompt], on the column the table is kept by. *)
Definition seed_voice_presets (table : gmap string string) : gmap string string :=
  foldl (fun t row => <[row.1 := row.2]> t) table seeded_voice_presets.

(** ** The [Authorization] header (lines 1577-1582) *)

(** [s.split(' ')]: the pieces between single spaces. *)
Fixpoint split_space (s : string) : list string :=
  match s with
  | EmptyString => [EmptyString]
  | String c rest =>
      if bool_decide (c = " "%char) then EmptyString :: split_space rest
      else match split_space rest with
           | [] => [String c EmptyString]
           | piece :: pieces => String c piece :: pieces
           end
  end.

(** [authHeader && authHeader.split(' ')[1]], where it is truthy. *)
Definition bearer_token (authHeader : option string) : option string :=
  header ← authHeader;
  token ← split_space header !! 1%nat;
  if bool_decide (token = "") then None else Some token.

(** What [authenticateToken] makes of a header, given what [jwt.verify]
    makes of a token: the [userId] of its payload, or an error. *)
Definition bearer_of_header (jwt_verify : string -> option Z)
    (authHeader : option string) : bearer :=
  match bearer_token authHeader with
  | None => NoToken
  | Some token =>
      match jwt_verify token with
      | Some userId => ValidToken userId
      | None => InvalidToken
      end
  end.

Fixpoint has_space (s : string) : bool :=
  match s with
  | EmptyString => false
  | String c rest => bool_decide (c = " "%char) || has_space rest
  end.


(** A word: not empty, no white space. *)
Fixpoint has_white_space (s : string) : bool :=
  match s with
  | EmptyString => false
  | String c rest => is_white_space c || has_white_space rest
  end.

Definition is_word (s : string) : Prop := s <> "" /\ has_white_space s = false.

#[global] Instance is_word_dec s : Decision (is_word s).
Proof. unfold is_word. apply _. Defined.

(** ** Accounts and saved scripts: the other tables (lines 1443-1454, 1469-1491) *)

(** Table [users], the columns that quota checking does not read.  A row
    of the table is a [user_row] together with the [account] held under
    the same [id]. *)
Record account : Type := Account {
  password_hash : string;
  first_name : option string;
  last_name : option string;
  subscription_status : string;
  registered_at : timestamp        (* column [created_at] *)
}.

(** Table [saved_scripts].  [title] and [topic] are [NOT NULL]; the only
    [INSERT] of the server gives a [user_id] and a JSON text for each
    JSONB column, which holds the data of that text, and the two time
    stamps take their default. *)
Record saved_script : Type := SavedScript {
  script_id : Z;
  script_user_id : Z;
  script_title : string;
  script_topic : string;
  script_audience : option string;
  script_duration : option string;
  script_tone : option string;
  script_video_type : option string;
  script_voice_preset : option string;
  script_content : option string;
  script_hooks : json;
  script_titles : json;
  script_outline : option string;
  script_description : option string;
  script_tags : json;
  script_thumbnail_text : json;
  script_call_to_actions : json;
  script_stats : json;
  script_created_at : timestamp;
  script_updated_at : timestamp
}.

(** The statements of the account and saved-script routes. *)
Inductive statement : Type :=
  | SelectUserId (email : string)                  (* line 1786 *)
  | InsertUser (email : string)                    (* lines 1793-1797 *)
  | SelectUser (email : option string)             (* line 1833 *)
  | SelectProfile (userId : Z)                     (* lines 1877-1897 *)
  | InsertSavedScript (userId : Z)                 (* lines 2210-2222 *)
  | SelectSavedScripts (userId : Z)                (* lines 2238-2242 *)
  | DeleteSavedScript (id : string) (userId : Z).  (* lines 2254-2257 *)

(** What [jwt.sign] signs (lines 1802-1807 and 1846-1851). *)
Record token_payload : Type := TokenPayload {
  payload_userId : Z;
  payload_email : string;
  payload_accessLevel : string;
  payload_firstName : option string
}.

(** The [user], [usage] and [quotas] objects of the profile (lines
    1905-1925).  A column that the row holds as [NULL] is [None]. *)
Record profile : Type := ProfileData {
  profile_id : Z;
  profile_email : string;
  profile_firstName : option string;
  profile_lastName : option string;
  profile_accessLevel : option string;
  profile_subscriptionStatus : string;
  profile_preferredVoice : string;
  profile_createdAt : timestamp;
  usage_script : Z;
  usage_hooks : Z;
  usage_titles : Z;
  quota_script_limit : option Z;
  quota_hooks_limit : option Z;
  quota_titles_limit : option Z;
  quota_features_enabled : option (list string)
}.

Inductive reply_body : Type :=
  | ErrorReply (error : string)
  | RegisteredReply (token : string) (id : Z) (email : string)
      (firstName lastName : option string) (accessLevel subscriptionStatus : string)
      (createdAt : timestamp)
  | LoggedInReply (token : string) (id : Z) (email : string)
      (firstName lastName : option string)
      (accessLevel subscriptionStatus preferredVoice : string)
  | ProfileReply (data : profile)
  | SavedReply (scriptId : Z) (savedAt : timestamp)
  | ScriptsReply (scripts : list saved_script)
  | SuccessReply.

Record reply : Type := Reply {
  reply_status : Z;
  reply_body_of : reply_body
}.

(** The world of the generation routes, with the other tables, their
    sequences, the salts that [bcrypt] will draw, and what the account and
    saved-script routes have sent to the store and to their clients. *)
Record backend : Type := Backend {
  core : world;
  accounts : gmap Z account;
  users_id_seq : Z;                (* last value of the sequence of [users.id] *)
  saved_scripts : list saved_script;
  saved_scripts_id_seq : Z;        (* last value of the sequence of [saved_scripts.id] *)
  salts : list string;
  statements : list statement;     (* oldest first *)
  replies : list reply
}.

Definition set_core (a : backend) (w : world) : backend :=
  {| core := w; accounts := accounts a; users_id_seq := users_id_seq a;
     saved_scripts := saved_scripts a; saved_scripts_id_seq := saved_scripts_id_seq a;
     salts := salts a; statements := statements a; replies := replies a |}.

Definition set_users_table (a : backend) (us : gmap Z user_row) (cs : gmap Z account) : backend :=
  {| core := {| users := us; usage_quotas := usage_quotas (core a);
                usage_logs := usage_logs (core a); voice_presets := voice_presets (core a);
                current_timestamp := current_timestamp (core a);
                db_faults := db_faults (core a); db_trace := db_trace (core a);
                clock_ms := clock_ms (core a); remote := remote (core a);
                fetch_trace := fetch_trace (core a); console := console (core a);
                sent := sent (core a); rate_limit_hits := rate_limit_hits (core a) |};
     accounts := cs; users_id_seq := users_id_seq a;
     saved_scripts := saved_scripts a; saved_scripts_id_seq := saved_scripts_id_seq a;
     salts := salts a; statements := statements a; replies := replies a |}.

Definition set_users_id_seq (a : backend) (n : Z) : backend :=
  {| core := core a; accounts := accounts a; users_id_seq := n;
     saved_scripts := saved_scripts a; saved_scripts_id_seq := saved_scripts_id_seq a;
     salts := salts a; statements := statements a; replies := replies a |}.

Definition set_saved_scripts (a : backend) (rows : list saved_script) : backend :=
  {| core := core a; accounts := accounts a; users_id_seq := users_id_seq a;
     saved_scripts := rows; saved_scripts_id_seq := saved_scripts_id_seq a;
     salts := salts a; statements := statements a; replies := replies a |}.

Definition set_saved_scripts_id_seq (a : backend) (n : Z) : backend :=
  {| core := core a; accounts := accounts a; users_id_seq := users_id_seq a;
     saved_scripts := saved_scripts a; saved_scripts_id_seq := n;
     salts := salts a; statements := statements a; replies := replies a |}.

Definition set_salts (a : backend) (l : list string) : backend :=
  {| core := core a; accounts := accounts a; users_id_seq := users_id_seq a;
     saved_scripts := saved_scripts a; saved_scripts_id_seq := saved_scripts_id_seq a;
     salts := l; statements := statements a; replies := replies a |}.

Definition set_statements (a : backend) (l : list statement) : backend :=
  {| core := core a; accounts := accounts a; users_id_seq := users_id_seq a;
     saved_scripts := saved_scripts a; saved_scripts_id_seq := saved_scripts_id_seq a;
     salts := salts a; statements := l; replies := replies a |}.

Definition set_replies (a : backend) (l : list reply) : backend :=
  {| core := core a; accounts := accounts a; users_id_seq := users_id_seq a;
     saved_scripts := saved_scripts a; saved_scripts_id_seq := saved_scripts_id_seq a;
     salts := salts a; statements := statements a; replies := l |}.

(** The monad of the generation routes, on the larger state. *)
Definition Async (A : Type) : Type := backend -> outcome A * backend.

Definition async_ret {A} (x : A) : Async A := fun a => (Returns x, a).

Definition async_throw {A} (e : js_error) : Async A := fun a => (Throws e, a).

Definition async_bind {A B} (m : Async A) (k : A -> Async B) : Async B :=
  fun a =>
    match m a with
    | (Returns x, a') => k x a'
    | (Throws e, a') => (Throws e, a')
    end.

Definition async_try_catch {A} (m : Async A) (h : js_error -> Async A) : Async A :=
  fun a =>
    match m a with
    | (Returns x, a') => (Returns x, a')
    | (Throws e, a') => h e a'
    end.

Notation "'let+' x := m 'in' k" := (async_bind m (fun x => k))
  (at level 10, x name, m at level 100, k at level 200).
Notation "m ;;+ k" := (async_bind m (fun _ => k))
  (at level 100, k at level 200, right associativity).

(** A computation of the generation routes, run on [core]. *)
Definition lift {A} (m : M A) : Async A :=
  fun a => let r := m (core a) in (r.1, set_core a r.2).

(** [res.status(code).json(body)]; [res.json(body)] is the same with
    status 200. *)
Definition res_reply (code : Z) (body : reply_body) : Async unit :=
  fun a => (Returns (), set_replies a (replies a ++ [{| reply_status := code;
                                                        reply_body_of := body |}])).

(** What sending a statement leaves behind: the statement is recorded and
    has taken the next entry of [db_faults]. *)
Definition sent_to_store (q : statement) (a : backend) : backend :=
  set_statements
    (set_core a (set_db (core a) (tail (db_faults (core a))) (db_trace (core a))))
    (statements a ++ [q]).

(** [await pool.query(...)], as [pool_query] has it.  [run] answers on
    the tables; it hands back the state also when the store refuses the
    statement, because a refused [INSERT] has advanced its sequence. *)
Definition store_query {A} (q : statement) (run : backend -> option A * backend) : Async A :=
  fun a =>
    let a1 := sent_to_store q a in
    match db_faults (core a) with
    | true :: _ => (Throws (Error "Connection terminated unexpectedly"), a1)
    | _ =>
        match run a1 with
        | (Some x, a2) => (Returns x, a2)
        | (None, a2) => (Throws (Error "statement rejected by the database"), a2)
        end
    end.

Definition reading {A} (rows : backend -> A) : backend -> option A * backend :=
  fun a => (Some (rows a), a).

(** [x || d] on an optional string: [undefined] and the empty string are
    falsy. *)
Definition text_or (x d : option string) : option string :=
  match x with
  | Some "" | None => d
  | Some _ => x
  end.

(** [x || d] on optional JSON data, and what it is for [JSON.stringify]
    and then the JSONB column. *)
Definition json_truthy (x : json) : bool :=
  match x with
  | JNull | JBool false | JNum 0 | JStr "" => false
  | _ => true
  end.

Definition json_or (x : option json) (d : json) : json :=
  match x with
  | Some v => if json_truthy v then v else d
  | None => d
  end.

(** The body of a save request (lines 2205-2208).  Request parameters are
    strings, the generated parts JSON data. *)
Record save_request : Type := SaveRequest {
  save_title : option string;
  save_topic : option string;
  save_audience : option string;
  save_duration : option string;
  save_tone : option string;
  save_videoType : option string;
  save_voicePreset : option string;
  save_scriptContent : option string;
  save_hooks : option json;
  save_titles : option json;
  save_outline : option string;
  save_description : option string;
  save_tags : option json;
  save_thumbnailText : option json;
  save_callToActions : option json;
  save_scriptStats : option json
}.

Record register_request : Type := RegisterRequest {
  register_email : option string;
  register_password : option string;
  register_firstName : option string;
  register_lastName : option string
}.

Record login_request : Type := LoginRequest {
  login_email : option string;
  login_password : option string
}.

(** The rows of [users], by [id]. *)
Definition users_table (a : backend) : gmap Z (user_row * account) :=
  map_zip (users (core a)) (accounts a).

(** [WHERE email = $1]: no row when the parameter is [NULL], and at most
    one row in a table that keeps [email] unique. *)
Definition users_with_email (address : option string) (a : backend)
    : list (Z * (user_row * account)) :=
  match address with
  | Some e => map_to_list (filter (fun r => email r.2.1 = e) (users_table a))
  | None => []
  end.

(** The sub-select of lines 1884-1893 for one [user_id]: the records of
    the current month of that user, and the three conditional counts. *)
Definition count_case (feature : string) (group : list usage_log) : Z :=
  Z.of_nat (length (filter (fun r => feature_type r = feature /\ success r = Some true) group)).

Definition usage_stats (userId : Z) (w : world) : option (Z * Z * Z) :=
  let this_month :=
    filter (fun r => ts_leb (date_trunc_month (current_timestamp w)) (created_at r) = true)
           (usage_logs w) in
  match filter (fun r => user_id r = Some userId) this_month with
  | [] => None
  | group => Some (count_case "script" group, count_case "hooks" group,
                   count_case "titles" group)
  end.

(** The query of lines 1877-1897 and the object built from its first row.
    Both [u.*] and [q.*] have a column [access_level]; the row object
    keeps the one that comes last, that of [usage_quotas], which is
    [NULL] when the left join finds no policy.  The counts are [0] where
    the left join finds no record of the month, and [parseInt] reads them
    back from their decimal text. *)
Definition select_profile (userId : Z) (a : backend) : list profile :=
  (fun r : user_row * account =>
     let u := r.1 in
     let c := r.2 in
     let stats := default (0, 0, 0) (usage_stats userId (core a)) in
     let q := usage_quotas (core a) !! access_level u in
     {| profile_id := userId;
        profile_email := email u;
        profile_firstName := first_name c;
        profile_lastName := last_name c;
        profile_accessLevel := (fun _ => access_level u) <$> q;
        profile_subscriptionStatus := subscription_status c;
        profile_preferredVoice := preferred_voice u;
        profile_createdAt := registered_at c;
        usage_script := stats.1.1;
        usage_hooks := stats.1.2;
        usage_titles := stats.2;
        quota_script_limit := monthly_script_limit <$> q;
        quota_hooks_limit := monthly_hooks_limit <$> q;
        quota_titles_limit := monthly_titles_limit <$> q;
        quota_features_enabled := features_enabled <$> q |})
  <$> option_list (users_table a !! userId).

(** [ORDER BY updated_at DESC] *)
Definition newer_first (r1 r2 : saved_script) : Prop :=
  ts_leb (script_updated_at r2) (script_updated_at r1) = true.

#[global] Instance newer_first_dec r1 r2 : Decision (newer_first r1 r2).
Proof. unfold newer_first. apply _. Defined.

(** Lines 2238-2242.  Rows with the same [updated_at] come in an order
    of the store's choosing; here it is that of a stable sort. *)
Definition select_saved_scripts (userId : Z) (a : backend) : list saved_script :=
  merge_sort newer_first (filter (fun r => script_user_id r = userId) (saved_scripts a)).

Section Accounts.

(** The length limit of a [VARCHAR(n)] column, as the store counts
    characters. *)
Variable varchar : Z -> string -> bool.

(** The store's reading of a parameter for an [INTEGER] column; [None]
    when it refuses the text. *)
Variable int4_in : string -> option Z.

(** [bcrypt.hash(password, 12)] with the salt drawn for it, and
    [bcrypt.compare]. *)
Variable bcrypt_hash : string -> string -> string.
Variable bcrypt_compare : string -> string -> bool.

(** [jwt.sign(payload, process.env.JWT_SECRET, { expiresIn: '30d' })] at
    the given time; it throws when the secret is not configured. *)
Variable jwt_sign : token_payload -> Z -> outcome string.

Definition varchar_null (n : Z) (x : option string) : bool :=
  match x with
  | Some s => varchar n s
  | None => true
  end.

(** The [INSERT INTO users] of lines 1793-1797: the sequence gives the
    [id]; [email] is [UNIQUE], the [id] the primary key; [access_level],
    [subscription_status], [preferred_voice] and [created_at] are as the
    statement or their defaults say. *)
Definition insert_user (address passwordHash : string) (firstName lastName : option string)
    (a : backend) : option (Z * (user_row * account)) * backend :=
  let id := users_id_seq a + 1 in
  let a1 := set_users_id_seq a id in
  let u := {| email := address; access_level := "free"; preferred_voice := "default" |} in
  let c := {| password_hash := passwordHash; first_name := firstName;
              last_name := lastName; subscription_status := "active";
              registered_at := current_timestamp (core a) |} in
  if varchar 255 address && varchar 255 passwordHash
     && varchar_null 255 firstName && varchar_null 255 lastName
     && bool_decide (users (core a) !! id = None)
     && bool_decide (map_Forall (fun _ existing => email existing <> address) (users (core a)))
  then (Some (id, (u, c)),
        set_users_table a1 (<[id := u]> (users (core a))) (<[id := c]> (accounts a)))
  else (None, a1).

(** The parameters of the [INSERT INTO saved_scripts] (lines 2217-2222),
    as the row they make: [hooks || []] and the like reach the JSONB
    columns through [JSON.stringify]. *)
Definition script_row (id userId : Z) (title topic : string) (body : save_request)
    (now : timestamp) : saved_script :=
  {| script_id := id; script_user_id := userId;
     script_title := title; script_topic := topic;
     script_audience := save_audience body; script_duration := save_duration body;
     script_tone := save_tone body; script_video_type := save_videoType body;
     script_voice_preset := save_voicePreset body;
     script_content := save_scriptContent body;
     script_hooks := json_or (save_hooks body) (JArr []);
     script_titles := json_or (save_titles body) (JArr []);
     script_outline := save_outline body;
     script_description := save_description body;
     script_tags := json_or (save_tags body) (JArr []);
     script_thumbnail_text := json_or (save_thumbnailText body) (JArr []);
     script_call_to_actions := json_or (save_callToActions body) (JArr []);
     script_stats := json_or (save_scriptStats body) (JObj []);
     script_created_at := now;
     script_updated_at := now |}.

(** The length limits of the columns of [saved_scripts]. *)
Definition script_fits (row : saved_script) : bool :=
  varchar 500 (script_title row) && varchar_null 100 (script_audience row)
  && varchar_null 20 (script_duration row) && varchar_null 100 (script_tone row)
  && varchar_null 100 (script_video_type row)
  && varchar_null 100 (script_voice_preset row).

(** The [INSERT INTO saved_scripts] of lines 2210-2222: the sequence gives
    the [id], the primary key; [title] (which is [title || topic]) and
    [topic] must not be [NULL], and [user_id] references [users]. *)
Definition insert_saved_script (userId : Z) (body : save_request) (a : backend)
    : option saved_script * backend :=
  let id := saved_scripts_id_seq a + 1 in
  let a1 := set_saved_scripts_id_seq a id in
  match text_or (save_title body) (save_topic body), save_topic body with
  | Some title, Some topic =>
      let row := script_row id userId title topic body (current_timestamp (core a)) in
      if script_fits row
         && bool_decide (is_Some (users (core a) !! userId))
         && bool_decide (Forall (fun r => script_id r <> id) (saved_scripts a))
      then (Some row, set_saved_scripts a1 (saved_scripts a ++ [row]))
      else (None, a1)
  | _, _ => (None, a1)
  end.

(** [DELETE FROM saved_scripts WHERE id = $1 AND user_id = $2 RETURNING id] *)
Definition delete_saved_script (id : string) (userId : Z) (a : backend)
    : option (list Z) * backend :=
  match int4_in id with
  | Some n =>
      let hit r := script_id r = n /\ script_user_id r = userId in
      (Some (script_id <$> filter hit (saved_scripts a)),
       set_saved_scripts a (filter (fun r => ~ hit r) (saved_scripts a)))
  | None => (None, a)
  end.

Definition log_error (label : string) (error : js_error) : Async unit :=
  lift (console_error label error).

(** Lines 2203-2234. *)
Definition save_script (userId : Z) (body : save_request) : Async unit :=
  async_try_catch
    (let+ row := store_query (InsertSavedScript userId)
                   (insert_saved_script userId body) in
     res_reply 200 (SavedReply (script_id row) (script_created_at row)))
    (fun error =>
       log_error "Save script error:" error ;;+
       res_reply 500 (ErrorReply "Failed to save script")).

(** Lines 2236-2250. *)
Definition get_saved_scripts (userId : Z) : Async unit :=
  async_try_catch
    (let+ rows := store_query (SelectSavedScripts userId)
                    (reading (select_saved_scripts userId)) in
     res_reply 200 (ScriptsReply rows))
    (fun error =>
       log_error "Get saved scripts error:" error ;;+
       res_reply 500 (ErrorReply "Failed to retrieve saved scripts")).

(** Lines 2252-2269; [id] is [req.params.id]. *)
Definition delete_script (userId : Z) (id : string) : Async unit :=
  async_try_catch
    (let+ rows := store_query (DeleteSavedScript id userId)
                    (delete_saved_script id userId) in
     if bool_decide (length rows = 0%nat)
     then res_reply 404 (ErrorReply "Script not found")
     else res_reply 200 SuccessReply)
    (fun error =>
       log_error "Delete script error:" error ;;+
       res_reply 500 (ErrorReply "Failed to delete script")).

(** [await bcrypt.hash(password, 12)] *)
Definition hash_password (password : string) : Async string :=
  fun a => (Returns (bcrypt_hash password (default "" (head (salts a)))),
            set_salts a (tail (salts a))).

(** [await bcrypt.compare(password, hash)]: the promise rejects when
    [password] is not a string. *)
Definition compare_password (password : option string) (hash : string) : Async bool :=
  match password with
  | Some p => async_ret (bcrypt_compare p hash)
  | None => async_throw (Error "Illegal arguments: undefined, string")
  end.

(** The payload of lines 1803-1806 and 1847-1850. *)
Definition payload_of (user : Z * (user_row * account)) : token_payload :=
  {| payload_userId := user.1; payload_email := email user.2.1;
     payload_accessLevel := access_level user.2.1;
     payload_firstName := first_name user.2.2 |}.

Definition sign_token (user : Z * (user_row * account)) : Async string :=
  fun a => (jwt_sign (payload_of user) (clock_ms (core a)), a).

(** The value of a request parameter that is not falsy: [!x] holds when
    there is none. *)
Definition given (x : option string) : option string := text_or x None.

(** Lines 1773-1827; [password.length] is the length of the byte
    string. *)
Definition register (body : register_request) : Async unit :=
  async_try_catch
    (match given (register_email body), given (register_password body) with
     | Some address, Some password =>
         if bool_decide (Z.of_nat (String.length password) < 6) then
           res_reply 400 (ErrorReply "Password must be at least 6 characters")
         else
           let+ existingUser := store_query (SelectUserId address)
                                  (reading (users_with_email (Some address))) in
           if bool_decide (0 < length existingUser)%nat then
             res_reply 400 (ErrorReply "User already exists")
           else
             let+ passwordHash := hash_password password in
             let+ user := store_query (InsertUser address)
                            (insert_user address passwordHash
                               (register_firstName body) (register_lastName body)) in
             let+ token := sign_token user in
             res_reply 200
               (RegisteredReply token user.1 (email user.2.1)
                  (first_name user.2.2) (last_name user.2.2)
                  (access_level user.2.1) (subscription_status user.2.2)
                  (registered_at user.2.2))
     | _, _ => res_reply 400 (ErrorReply "Email and password required")
     end)
    (fun error =>
       log_error "Registration error:" error ;;+
       res_reply 500 (ErrorReply "Registration failed")).

(** Lines 1829-1871. *)
Definition login (body : login_request) : Async unit :=
  async_try_catch
    (let+ userResult := store_query (SelectUser (login_email body))
                          (reading (users_with_email (login_email body))) in
     match userResult with
     | [] => res_reply 401 (ErrorReply "Invalid credentials")
     | user :: _ =>
         let+ isValidPassword :=
           compare_password (login_password body) (password_hash user.2.2) in
         if negb isValidPassword then
           res_reply 401 (ErrorReply "Invalid credentials")
         else
           let+ token := sign_token user in
           res_reply 200
             (LoggedInReply token user.1 (email user.2.1)
                (first_name user.2.2) (last_name user.2.2)
                (access_level user.2.1) (subscription_status user.2.2)
                (preferred_voice user.2.1))
     end)
    (fun error =>
       log_error "Login error:" error ;;+
       res_reply 500 (ErrorReply "Login failed")).

(** Lines 1874-1931. *)
Definition user_profile (userId : Z) : Async unit :=
  async_try_catch
    (let+ userProfile := store_query (SelectProfile userId)
                           (reading (select_profile userId)) in
     match userProfile with
     | [] => res_reply 404 (ErrorReply "User not found")
     | userData :: _ => res_reply 200 (ProfileReply userData)
     end)
    (fun error =>
       log_error "Profile fetch error:" error ;;+
       res_reply 500 (ErrorReply "Failed to fetch profile")).

End Accounts.

(** A route that answers every request, once. *)
Definition replies_once (route : Async unit) : Prop :=
  forall a, exists r a', route a = (Returns (), a') /\ replies a' = replies a ++ [r].

(** The saved scripts of one user. *)
Definition scripts_of (userId : Z) (a : backend) : list saved_script :=
  filter (fun r => script_user_id r = userId) (saved_scripts a).

(** ** A sample deployment

    The seeded policies and a tier [starter] that enables scripts only;
    Ada is on the free tier and has used her five scripts for June 2025,
    Bob is on [starter], and Cy's tier [trial] has no policy row. *)
Definition starter_quota : quota_row := QuotaRow 3 0 0 0 0 0 0 0 ["script"].

Definition script_log (userId : Z) (ok : bool) (t : timestamp) : usage_log :=
  {| user_id := Some userId; feature_type := "script"; tokens_used := Some 900;
     processing_time_ms := Some 4200; success := Some ok;
     error_message := if ok then None else Some "API request failed: 529";
     metadata := Some (JObj [("topic", JStr "espresso")]);
     created_at := t |}.

Definition sample_logs : list usage_log :=
  [script_log 1 true (Timestamp 2025 5 30 1000);
   script_log 1 true (Timestamp 2025 6 1 0);
   script_log 1 true (Timestamp 2025 6 2 500);
   script_log 1 false (Timestamp 2025 6 2 900);
   script_log 1 true (Timestamp 2025 6 7 0);
   script_log 2 true (Timestamp 2025 6 8 0);
   script_log 1 true (Timestamp 2025 6 9 0);
   script_log 1 true (Timestamp 2025 6 14 86399999999)].

(** A reply wrapped in a [json] code fence. *)
Definition fenced (inner : string) : string :=
  "```json" +:+ String "010" (inner +:+ String "010" "```").

Definition fenced_reply : string := fenced "[1, 2, 3]".

(** [n] requests in a row. *)
Fixpoint repeat_request (n : nat) (m : M unit) : M unit :=
  match n with
  | O => ret ()
  | S k => m ;;; repeat_request k m
  end.

Fixpoint has_backtick (s : string) : bool :=
  match s with
  | EmptyString => false
  | String c rest => bool_decide (c = "`"%char) || has_backtick rest
  end.

Definition sample_world : world :=
  {| users := {[ 1 := UserRow "ada@example.org" "free" "default";
                 2 := UserRow "bob@example.org" "starter" "default";
                 3 := UserRow "cy@example.org" "trial" "default" ]};
     usage_quotas := <["starter" := starter_quota]> (seed_usage_quotas ∅);
     usage_logs := sample_logs;
     voice_presets := {[ "default" :=
       "You are an expert YouTube content creator with deep knowledge of viral content strategies." ]};
     current_timestamp := Timestamp 2025 6 15 43200000000;
     db_faults := [];
     db_trace := [];
     clock_ms := 1750000000000;
     remote := FetchResponds 200 (BodyText fenced_reply) 2500;
     fetch_trace := [];
     console := [];
     sent := [];
     rate_limit_hits := ∅ |}.

(** ** A sample deployment with accounts and saved scripts

    Stand-ins for the store's column checks and for the two libraries,
    to run the routes on concrete requests. *)
Definition sample_varchar (n : Z) (s : string) : bool :=
  bool_decide (Z.of_nat (String.length s) <= n).

Definition sample_int4_in (s : string) : option Z :=
  match Reader.parse s with
  | Some (JNum n) => Some n
  | _ => None
  end.

Definition sample_bcrypt_hash (password salt : string) : string :=
  "$2a$12$" +:+ salt +:+ "." +:+ password.

Definition sample_bcrypt_compare (password hash : string) : bool :=
  String.prefix (String.rev ("." +:+ password)) (String.rev hash).

Definition sample_jwt_sign (payload : token_payload) (now : Z) : outcome string :=
  Returns ("jwt." +:+ pretty (payload_userId payload) +:+ "." +:+ pretty now).


Definition sample_save : save_request :=
  {| save_title := None; save_topic := Some "espresso";
     save_audience := Some "beginners"; save_duration := Some "5-7";
     save_tone := None; save_videoType := Some "tutorial"; save_voicePreset := None;
     save_scriptContent := Some "Pull the shot.";
     save_hooks := Some (JArr [JStr "Stop tamping like that"]); save_titles := None;
     save_outline := None; save_description := None; save_tags := None;
     save_thumbnailText := None; save_callToActions := None;
     save_scriptStats := Some (JObj [("wordCount", JNum 3)]) |}.

Definition sample_backend : backend :=
  {| core := sample_world;
     accounts :=
       {[ 1 := Account (sample_bcrypt_hash "ristretto" "s") (Some "Ada") None "active"
                 (Timestamp 2025 1 10 0);
          2 := Account (sample_bcrypt_hash "macchiato" "t") (Some "Bob") None "active"
                 (Timestamp 2025 2 11 0);
          3 := Account (sample_bcrypt_hash "cortado99" "u") None None "active"
                 (Timestamp 2025 3 12 0) ]};
     users_id_seq := 3;
     saved_scripts :=
       [script_row 1 1 "Espresso at home" "espresso" sample_save (Timestamp 2025 6 1 0);
        script_row 2 2 "Latte art" "latte" sample_save (Timestamp 2025 6 3 0);
        script_row 3 1 "Grinders" "grinders" sample_save (Timestamp 2025 6 10 0)];
     saved_scripts_id_seq := 3;
     salts := ["v"; "w"];
     statements := [];
     replies := [] |}.


(** * Properties *)

(** ** The monad and its effects *)

Lemma available_head n w : available (S n) w -> head (db_faults w) <> Some true.
Proof.
  unfold available. destruct (db_faults w) as [|[] l]; simpl; try done.
  by inversion 1.
Qed.

Lemma available_tail n w trace :
  available (S n) w -> available n (set_db w (tail (db_faults w)) trace).
Proof.
  unfold available. simpl. destruct (db_faults w) as [|fault l]; simpl.
  - by rewrite take_nil.
  - by inversion 1.
Qed.


Lemma pool_query_select {A} (q : db_query) (rows : world -> A) w :
  head (db_faults w) <> Some true ->
  pool_query q (select rows) w =
    (Returns (rows (set_db w (tail (db_faults w)) (db_trace w ++ [q]))),
     set_db w (tail (db_faults w)) (db_trace w ++ [q])).
Proof.
  intros H. unfold pool_query, select.
  destruct (db_faults w) as [|[] ?]; simpl in *; congruence.
Qed.

Lemma pool_query_fault {A} (q : db_query) (run : world -> option (A * world)) w :
  head (db_faults w) = Some true ->
  pool_query q run w =
    (Throws (Error "Connection terminated unexpectedly"),
     set_db w (tail (db_faults w)) (db_trace w ++ [q])).
Proof.
  intros H. unfold pool_query.
  destruct (db_faults w) as [|[] ?]; simpl in *; congruence.
Qed.

(** ** The calendar month *)




(** ** The paths through [checkQuota] *)

Lemma tail_drop {A} (l : list A) n : tail (drop n l) = drop (S n) l.
Proof.
  revert l; induction n as [|n IH]; intros [|x l]; simpl; try done.
Qed.

Lemma after_queries_step w qs q :
  set_db (after_queries w qs) (tail (db_faults (after_queries w qs)))
         (db_trace (after_queries w qs) ++ [q])
  = after_queries w (qs ++ [q]).
Proof.
  unfold after_queries, set_db. simpl.
  rewrite tail_drop, length_app, <- app_assoc. simpl.
  by replace (length qs + 1)%nat with (S (length qs)) by lia.
Qed.

Lemma after_queries_nil w : after_queries w [] = w.
Proof. unfold after_queries, set_db. simpl. rewrite app_nil_r. by destruct w. Qed.

Lemma available_after w n qs :
  available (length qs + n) w -> available n (after_queries w qs).
Proof.
  unfold available, after_queries. simpl. intros H.
  rewrite take_drop_commute. by apply Forall_drop.
Qed.

Section CheckQuota.

Variables (userId : Z) (featureType : string) (w : world).

Let q_user := SelectUserAccessLevel userId.

Lemma checkQuota_user_not_found :
  available 1 w -> users w !! userId = None ->
  checkQuota userId featureType w
  = (Returns (deny "User not found"), after_queries w [q_user]).
Proof.
  intros Hup Hnone. unfold checkQuota, try_catch, checkQuota_body, bind.
  rewrite pool_query_select by (by eapply available_head).
  simpl. rewrite Hnone. simpl. unfold ret, after_queries. simpl.
  by destruct (db_faults w).
Qed.

Lemma checkQuota_no_quota u :
  available 2 w -> users w !! userId = Some u ->
  usage_quotas w !! access_level u = None ->
  checkQuota userId featureType w
  = (Returns (deny "No quota found"),
     after_queries w [q_user; SelectQuota (access_level u)]).
Proof.
  intros Hup Hu Hnone. unfold checkQuota, try_catch, checkQuota_body, bind.
  rewrite pool_query_select by (by eapply available_head).
  simpl. rewrite Hu. simpl.
  rewrite pool_query_select
    by (eapply available_head, (available_tail 1 w); exact Hup).
  simpl. rewrite Hnone. simpl. unfold ret, after_queries, set_db. simpl.
  rewrite <- app_assoc. simpl. do 3 f_equal. by destruct (db_faults w) as [|? [|? ?]].
Qed.

Lemma checkQuota_feature_disabled u q :
  available 2 w -> users w !! userId = Some u ->
  usage_quotas w !! access_level u = Some q ->
  featureType ∉ features_enabled q ->
  checkQuota userId featureType w
  = (Returns (deny "Feature not available in your plan"),
     after_queries w [q_user; SelectQuota (access_level u)]).
Proof.
  intros Hup Hu Hq Hnot. unfold checkQuota, try_catch, checkQuota_body, bind.
  rewrite pool_query_select by (by eapply available_head).
  simpl. rewrite Hu. simpl.
  rewrite pool_query_select
    by (eapply available_head, (available_tail 1 w); exact Hup).
  simpl. rewrite Hq. simpl. rewrite bool_decide_eq_false_2 by done. simpl.
  unfold ret, after_queries, set_db. simpl.
  rewrite <- app_assoc. simpl. do 3 f_equal. by destruct (db_faults w) as [|? [|? ?]].
Qed.

Lemma checkQuota_counted u q :
  available 3 w -> users w !! userId = Some u ->
  usage_quotas w !! access_level u = Some q ->
  featureType ∈ features_enabled q ->
  checkQuota userId featureType w
  = (Returns (match feature_limit featureType q with
              | Some lim => verdict (usage_count userId featureType w) lim
              | None => deny "Unknown feature type"
              end),
     after_queries w [q_user; SelectQuota (access_level u);
                      CountUsage userId featureType]).
Proof.
  intros Hup Hu Hq Hin. unfold checkQuota, try_catch, checkQuota_body, bind.
  rewrite pool_query_select by (by eapply available_head).
  simpl. rewrite Hu. simpl.
  rewrite pool_query_select
    by (eapply available_head, (available_tail 2 w); exact Hup).
  simpl. rewrite Hq. simpl. rewrite bool_decide_eq_true_2 by done. simpl.
  rewrite pool_query_select.
  2:{ eapply available_head, (available_tail 1), (available_tail 2 w); exact Hup. }
  simpl.
  assert (after_queries w [q_user; SelectQuota (access_level u); CountUsage userId featureType]
          = set_db w (tail (tail (tail (db_faults w))))
              (((db_trace w ++ [q_user]) ++ [SelectQuota (access_level u)])
               ++ [CountUsage userId featureType])) as ->.
  { unfold after_queries, set_db. simpl. rewrite <- !app_assoc. simpl.
    do 3 f_equal. by destruct (db_faults w) as [|? [|? [|? ?]]]. }
  unfold usage_count. simpl.
  by destruct (feature_limit featureType q).
Qed.

(** The [try] block throws only when a statement is rejected, and the
    [catch] block turns whatever it throws into the generic denial. *)
Lemma checkQuota_catches e w1 :
  checkQuota_body userId featureType w = (Throws e, w1) ->
  checkQuota userId featureType w
  = (Returns (deny "Quota check failed"),
     set_console w1 (console w1 ++ [console_line "Quota check error:" e])).
Proof.
  intros Hbody. unfold checkQuota, try_catch. rewrite Hbody.
  reflexivity.
Qed.

Lemma checkQuota_returns :
  exists r w', checkQuota userId featureType w = (Returns r, w').
Proof.
  unfold checkQuota, try_catch.
  destruct (checkQuota_body userId featureType w) as [[r|e] w1]; [by eauto|].
  unfold bind, console_error, ret. eauto.
Qed.

End CheckQuota.

(** ** The quota evaluator *)


Lemma verdict_allowed current lim : allowed (verdict current lim) = true <-> current < lim.
Proof. simpl. apply bool_decide_eq_true. Qed.

Lemma verdict_reason current lim :
  reason (verdict current lim)
  = if allowed (verdict current lim) then None else Some (limit_reached_message lim).
Proof. simpl. repeat case_bool_decide; try done; lia. Qed.




(** C2. When the policy row of the user's tier does not list the feature,
    [checkQuota] denies with "Feature not available in your plan" whatever
    the usage log holds, and the only statements it has sent are the reads
    of the user and of the policy row: the usage count is not queried. *)
Theorem checkQuota_feature_not_in_plan userId featureType w u q :
  available 2 w ->
  users w !! userId = Some u ->
  usage_quotas w !! access_level u = Some q ->
  featureType ∉ features_enabled q ->
  forall logs,
    let w0 := set_usage_logs w logs in
    exists w',
      checkQuota userId featureType w0
      = (Returns {| allowed := false; currentUsage := None; limit := None;
                    reason := Some "Feature not available in your plan" |}, w')
      /\ db_trace w' = db_trace w ++ [SelectUserAccessLevel userId;
                                       SelectQuota (access_level u)]
      /\ usage_logs w' = logs.
Proof.
  intros Hup Hu Hq Hnot logs w0. eexists. split.
  - by apply (checkQuota_feature_disabled userId featureType w0 u q).
  - done.
Qed.

Lemma checkQuota_feature_not_in_plan_witness :
  available 2 sample_world
  /\ users sample_world !! 2 = Some (UserRow "bob@example.org" "starter" "default")
  /\ usage_quotas sample_world !! "starter" = Some starter_quota
  /\ ("hooks" ∉ features_enabled starter_quota)
  /\ exists w',
       checkQuota 2 "hooks" (set_usage_logs sample_world [])
       = (Returns (deny "Feature not available in your plan"), w')
       /\ db_trace w' = [SelectUserAccessLevel 2; SelectQuota "starter"]
       /\ usage_logs w' = [].
Proof.
  assert (available 2 sample_world) as Hup by compute_done.
  assert (users sample_world !! 2 = Some (UserRow "bob@example.org" "starter" "default"))
    as Hu by reflexivity.
  assert (usage_quotas sample_world !! "starter" = Some starter_quota) as Hq
    by reflexivity.
  assert ("hooks" ∉ features_enabled starter_quota) as Hnot by compute_done.
  do 4 (split; [done|]).
  exact (checkQuota_feature_not_in_plan 2 "hooks" sample_world _ _ Hup Hu Hq Hnot []).
Defined.

Lemma limit_reached_message_not_generic lim :
  limit_reached_message lim <> "Quota check failed".
Proof. unfold limit_reached_message. simpl. discriminate. Qed.

Lemma limit_reached_message_not_empty lim : limit_reached_message lim <> "".
Proof. unfold limit_reached_message. simpl. discriminate. Qed.

(** A statement that the store rejects ends the evaluation with the
    generic denial, whichever of the three statements it is. *)
Lemma checkQuota_rejected_statement userId featureType w r w' :
  checkQuota userId featureType w = (Returns r, w') ->
  (exists i, (length (db_trace w) + i < length (db_trace w'))%nat
             /\ db_faults w !! i = Some true) ->
  r = deny "Quota check failed".
Proof.
  unfold checkQuota, try_catch, checkQuota_body, bind, ret, pool_query, select,
    console_error.
  intros Hrun (i & Hi & Hfault).
  destruct (db_faults w) as [|b0 [|b1 [|b2 faults]]] eqn:Hfaults;
    repeat match goal with b : bool |- _ => destruct b end;
    simpl in Hrun;
    repeat (case_match; simplify_eq/=); try done;
    rewrite ?length_app in Hi; simpl in Hi;
    destruct i as [|[|[|i]]]; simplify_eq/=; try lia.
  all: rewrite ?lookup_nil in *; try done.
Qed.

(** C3. [checkQuota] always returns to its caller.  A missing user is
    denied with "User not found", a tier without policy row with "No quota
    found"; whenever the evaluation throws, and so whenever the store
    rejects one of the statements it is sent, the result is a denial with
    "Quota check failed", which is none of the reasons of a policy
    denial. *)
Theorem checkQuota_fails_closed userId featureType w :
  exists r w',
    checkQuota userId featureType w = (Returns r, w')
    /\ (available 1 w -> users w !! userId = None -> r = deny "User not found")
    /\ (forall u, available 2 w -> users w !! userId = Some u ->
          usage_quotas w !! access_level u = None -> r = deny "No quota found")
    /\ (forall e w1, checkQuota_body userId featureType w = (Throws e, w1) ->
          r = deny "Quota check failed")
    /\ (head (db_faults w) = Some true -> r = deny "Quota check failed")
    /\ ((exists i, (length (db_trace w) + i < length (db_trace w'))%nat
                   /\ db_faults w !! i = Some true) ->
        r = deny "Quota check failed")
    /\ ~ policy_reason "Quota check failed".
Proof.
  destruct (checkQuota_returns userId featureType w) as (r & w' & Hrun).
  exists r, w'. split; [done|]. repeat split.
  - intros Hup Hnone.
    rewrite (checkQuota_user_not_found userId featureType w Hup Hnone) in Hrun.
    congruence.
  - intros u Hup Hu Hnone.
    rewrite (checkQuota_no_quota userId featureType w u Hup Hu Hnone) in Hrun.
    congruence.
  - intros e w1 Hbody.
    rewrite (checkQuota_catches userId featureType w e w1 Hbody) in Hrun.
    congruence.
  - intros Hfault.
    assert (exists w1, checkQuota_body userId featureType w
                       = (Throws (Error "Connection terminated unexpectedly"), w1))
      as [w1 Hbody].
    { unfold checkQuota_body, bind. rewrite pool_query_fault by done. by eexists. }
    rewrite (checkQuota_catches userId featureType w _ w1 Hbody) in Hrun.
    congruence.
  - by apply (checkQuota_rejected_statement userId featureType w r w').
  - intros [Hin | [lim Heq]].
    + revert Hin. rewrite !elem_of_cons, elem_of_nil. intuition discriminate.
    + symmetry in Heq. by apply limit_reached_message_not_generic in Heq.
Qed.

Lemma checkQuota_fails_closed_witness :
  (exists w', checkQuota 99 "script" sample_world = (Returns (deny "User not found"), w'))
  /\ (exists w', checkQuota 3 "script" sample_world = (Returns (deny "No quota found"), w'))
  /\ (exists w', checkQuota 1 "script" (set_db sample_world [true] [])
                 = (Returns (deny "Quota check failed"), w')).
Proof.
  repeat split.
  - destruct (checkQuota_fails_closed 99 "script" sample_world)
      as (r & w' & Hrun & Hmissing & _).
    exists w'. rewrite <- (Hmissing ltac:(compute_done) eq_refl). exact Hrun.
  - destruct (checkQuota_fails_closed 3 "script" sample_world)
      as (r & w' & Hrun & _ & Hquota & _).
    exists w'.
    rewrite <- (Hquota (UserRow "cy@example.org" "trial" "default")
                  ltac:(compute_done) eq_refl eq_refl).
    exact Hrun.
  - destruct (checkQuota_fails_closed 1 "script" (set_db sample_world [true] []))
      as (r & w' & Hrun & _ & _ & _ & Hfault & _ & _).
    exists w'. rewrite <- (Hfault eq_refl). exact Hrun.
Defined.


Lemma checkQuota_body_shape userId featureType w r w1 :
  checkQuota_body userId featureType w = (Returns r, w1) ->
  (exists why, why <> "" /\ r = deny why) \/ (exists current lim, r = verdict current lim).
Proof.
  unfold checkQuota_body, bind, ret.
  destruct (pool_query _ _ w) as [[[|user0 ?]|?] w2]; try discriminate.
  { intros [= <- _]. left. eexists. split; [|reflexivity]. discriminate. }
  destruct (pool_query _ _ w2) as [[[|quotaData ?]|?] w3]; try discriminate.
  { intros [= <- _]. left. eexists. split; [|reflexivity]. discriminate. }
  destruct (negb _).
  { intros [= <- _]. left. eexists. split; [|reflexivity]. discriminate. }
  destruct (pool_query _ _ w3) as [[current|?] w4]; try discriminate.
  destruct (feature_limit featureType quotaData) as [lim|].
  - intros [= <- _]. right. by exists current, lim.
  - intros [= <- _]. left. eexists. split; [|reflexivity]. discriminate.
Qed.

(** C10. In every result of [checkQuota] the reason is [null] exactly when
    the request is allowed, and a denial carries a reason that is a
    non-empty string. *)
Theorem checkQuota_reason_iff_denied userId featureType w :
  exists r w',
    checkQuota userId featureType w = (Returns r, w')
    /\ (reason r = None <-> allowed r = true)
    /\ (allowed r = false -> exists why, reason r = Some why /\ why <> "").
Proof.
  assert (forall why, why <> "" ->
            (reason (deny why) = None <-> allowed (deny why) = true)
            /\ (allowed (deny why) = false ->
                exists why', reason (deny why) = Some why' /\ why' <> ""))
    as Hdeny.
  { intros why Hne. simpl. split; [split; discriminate|]. intros _. by exists why. }
  unfold checkQuota, try_catch.
  destruct (checkQuota_body userId featureType w) as [[r|e] w1] eqn:Hbody.
  - exists r, w1. split; [done|].
    destruct (checkQuota_body_shape _ _ _ _ _ Hbody)
      as [(why & Hne & ->) | (current & lim & ->)]; [by apply Hdeny|].
    rewrite verdict_reason.
    destruct (allowed (verdict current lim)); split; try done.
    intros _. eexists. split; [done|]. apply limit_reached_message_not_empty.
  - eexists _, _. split; [reflexivity|]. by apply Hdeny.
Qed.

(** ** The usage ledger *)

Lemma insert_usage_log_appends userId featureType ok ms tokens msg meta w u w' :
  insert_usage_log userId featureType ok ms tokens msg meta w = Some (u, w') ->
  exists row, w' = set_usage_logs w (usage_logs w ++ [row]).
Proof.
  unfold insert_usage_log. intros H.
  destruct (as_integer userId) as [uid|]; simpl in H; [|done].
  destruct (as_text featureType) as [[feature|]|]; simpl in H; try done.
  destruct (as_boolean ok) as [ok'|]; simpl in H; [|done].
  destruct (as_integer ms) as [ms'|]; simpl in H; [|done].
  destruct (as_integer tokens) as [tokens'|]; simpl in H; [|done].
  destruct (as_text msg) as [msg'|]; simpl in H; [|done].
  destruct (references_user w uid); [|done].
  injection H as _ <-. by eexists.
Qed.

(** The three ways a call of [logUsage] ends; it returns in each. *)
Lemma logUsage_cases args w :
  exists w',
    logUsage args w = (Returns (), w')
    /\ ((exists row,
           head (db_faults w) <> Some true
           /\ w' = set_usage_logs
                     (set_db w (tail (db_faults w)) (db_trace w ++ [InsertUsageLog]))
                     (usage_logs w ++ [row]))
        \/ (exists e,
              let w1 := set_db w (tail (db_faults w)) (db_trace w ++ [InsertUsageLog]) in
              w' = set_console w1 (console w ++ [console_line "Usage logging error:" e]))).
Proof.
  unfold logUsage, try_catch, pool_query, console_error.
  destruct (db_faults w) as [|[] faults] eqn:Hfaults; simpl.
  - destruct (insert_usage_log _ _ _ _ _ _ _ _) as [[[] w2]|] eqn:Hins.
    + apply insert_usage_log_appends in Hins as [row ->].
      eexists. split; [done|]. left. by exists row.
    + eexists. split; [done|]. right.
      by exists (Error "statement rejected by the database").
  - eexists. split; [done|]. right.
    by exists (Error "Connection terminated unexpectedly").
  - destruct (insert_usage_log _ _ _ _ _ _ _ _) as [[[] w2]|] eqn:Hins.
    + apply insert_usage_log_appends in Hins as [row ->].
      eexists. split; [done|]. left. by exists row.
    + eexists. split; [done|]. right.
      by exists (Error "statement rejected by the database").
Qed.

(** C5. [logUsage] returns normally for every argument list and every
    state of the store.  When the store rejects the insert nothing is
    appended and one line goes to the console; the call never touches the
    response, so the [res.json] that follows it in a handler sends the same
    response whether or not the record was stored. *)
Theorem logUsage_never_throws args w :
  exists w',
    logUsage args w = (Returns (), w')
    /\ sent w' = sent w
    /\ (head (db_faults w) = Some true ->
        usage_logs w' = usage_logs w
        /\ console w' = console w
             ++ ["Usage logging error: Error: Connection terminated unexpectedly"])
    /\ (usage_logs w' = usage_logs w \/ exists row, usage_logs w' = usage_logs w ++ [row])
    /\ (forall code body,
          exists w'',
            (logUsage args ;;; res_json code body) w = (Returns (), w'')
            /\ sent w'' = sent w ++ [{| res_status := code; res_body := body |}]).
Proof.
  destruct (logUsage_cases args w) as (w' & Hrun & Hcases).
  exists w'. split; [done|].
  assert (sent w' = sent w) as Hsent.
  { destruct Hcases as [(row & _ & ->) | (e & ->)]; done. }
  split; [done|]. split; [|split].
  - intros Hfault.
    unfold logUsage, try_catch in Hrun. rewrite pool_query_fault in Hrun by done.
    unfold console_error in Hrun. by injection Hrun as <-.
  - destruct Hcases as [(row & _ & ->) | (e & ->)]; [right; by exists row | by left].
  - intros code body. unfold bind. rewrite Hrun. unfold res_json.
    eexists. split; [done|]. simpl. by rewrite Hsent.
Qed.

Lemma logUsage_never_throws_witness :
  let args := [VNum 1; VStr "hooks"; VBool true] in
  let w := set_db sample_world [true] [] in
  exists w',
    logUsage args w = (Returns (), w')
    /\ sent w' = []
    /\ usage_logs w' = sample_logs
    /\ console w' = ["Usage logging error: Error: Connection terminated unexpectedly"].
Proof.
  intros args w.
  destruct (logUsage_never_throws args w) as (w' & Hrun & Hsent & Hfault & _).
  destruct (Hfault eq_refl) as [Hlogs Hconsole].
  exists w'. by repeat split.
Defined.


(** ** What the evaluator leaves alone *)

Lemma same_data_refl w : same_data w w.
Proof. by repeat split. Qed.

Lemma same_data_trans w1 w2 w3 : same_data w1 w2 -> same_data w2 w3 -> same_data w1 w3.
Proof. unfold same_data. intros ? ?. destruct_and!. repeat split; congruence. Qed.

Lemma pool_query_select_same_data {A} q (rows : world -> A) w o w' :
  pool_query q (select rows) w = (o, w') -> same_data w w'.
Proof.
  unfold pool_query, select.
  destruct (db_faults w) as [|[] ?]; intros [= _ <-]; by repeat split.
Qed.

Lemma checkQuota_body_same_data userId featureType w o w' :
  checkQuota_body userId featureType w = (o, w') -> same_data w w'.
Proof.
  unfold checkQuota_body, bind, ret.
  destruct (pool_query _ _ w) as [[[|user0 ?]|?] w2] eqn:H1;
    apply pool_query_select_same_data in H1;
    [by intros; simplify_eq/= | | by intros; simplify_eq/=].
  destruct (pool_query _ _ w2) as [[[|quotaData ?]|?] w3] eqn:H2;
    apply pool_query_select_same_data in H2;
    [intros; simplify_eq/=; by eapply same_data_trans | |
     intros; simplify_eq/=; by eapply same_data_trans].
  destruct (negb _).
  { intros; simplify_eq/=. by eapply same_data_trans. }
  destruct (pool_query _ _ w3) as [[current|?] w4] eqn:H3;
    apply pool_query_select_same_data in H3.
  - destruct (feature_limit featureType quotaData);
      intros; simplify_eq/=; eauto using same_data_trans.
  - intros; simplify_eq/=; eauto using same_data_trans.
Qed.

Lemma checkQuota_same_data userId featureType w o w' :
  checkQuota userId featureType w = (o, w') -> same_data w w'.
Proof.
  unfold checkQuota, try_catch.
  destruct (checkQuota_body userId featureType w) as [[r|e] w1] eqn:Hbody;
    apply checkQuota_body_same_data in Hbody.
  - by intros; simplify_eq/=.
  - unfold bind, console_error, ret. intros; simplify_eq/=.
    eapply same_data_trans; [done|]. by repeat split.
Qed.

(** ** The generation routes *)

(** C4. When the quota check of a generation request does not allow it,
    the handler answers 429 with the reason of the check and returns: no
    usage record is written, the generation service is not called, and no
    further statement goes to the store. *)
Theorem quota_denial_ends_request JSON_parse copy g userId body w r w1 :
  checkQuota userId (feature_of g) w = (Returns r, w1) ->
  allowed r = false ->
  exists w',
    generate JSON_parse copy g userId body w = (Returns (), w')
    /\ sent w' = sent w ++ [{| res_status := 429; res_body := ErrorBody (reason r) |}]
    /\ usage_logs w' = usage_logs w
    /\ fetch_trace w' = fetch_trace w
    /\ db_trace w' = db_trace w1.
Proof.
  intros Hcheck Hdenied.
  pose proof (checkQuota_same_data _ _ _ _ _ Hcheck)
    as (_ & _ & Hlogs & _ & _ & _ & _ & Hfetch & Hsent & _).
  exists (set_sent w1 (sent w1 ++ [{| res_status := 429; res_body := ErrorBody (reason r) |}])).
  split.
  - destruct g; simpl in Hcheck |- *;
      unfold generate_script, generate_hooks, generate_titles, generate_script_try,
        generate_hooks_try, generate_titles_try, try_catch, bind, Date_now;
      rewrite Hcheck, Hdenied; reflexivity.
  - simpl. by rewrite Hsent.
Qed.

Lemma quota_denial_ends_request_witness :
  checkQuota 1 "script" sample_world
  = (Returns (verdict 5 5),
     after_queries sample_world
       [SelectUserAccessLevel 1; SelectQuota "free"; CountUsage 1 "script"])
  /\ allowed (verdict 5 5) = false
  /\ exists w',
       generate Reader.parse Server Script 1 {[ "topic" := "espresso" ]} sample_world
       = (Returns (), w')
       /\ sent w' = [{| res_status := 429;
                        res_body := ErrorBody (Some "Monthly limit of 5 reached") |}]
       /\ usage_logs w' = sample_logs
       /\ fetch_trace w' = []
       /\ db_trace w' = [SelectUserAccessLevel 1; SelectQuota "free"; CountUsage 1 "script"].
Proof.
  assert (checkQuota 1 "script" sample_world
          = (Returns (verdict 5 5),
             after_queries sample_world
               [SelectUserAccessLevel 1; SelectQuota "free"; CountUsage 1 "script"]))
    as Hcheck by reflexivity.
  split; [done|]. split; [done|].
  exact (quota_denial_ends_request Reader.parse Server Script 1 {[ "topic" := "espresso" ]}
           sample_world _ _ Hcheck eq_refl).
Defined.

(** ** Stepping through a handler *)

Lemma bind_returns {A B} (m : M A) (k : A -> M B) w a w' :
  m w = (Returns a, w') -> bind m k w = k a w'.
Proof. unfold bind. by intros ->. Qed.

Lemma bind_throws {A B} (m : M A) (k : A -> M B) w e w' :
  m w = (Throws e, w') -> bind m k w = (Throws e, w').
Proof. unfold bind. by intros ->. Qed.

Lemma try_catch_returns {A} (m : M A) h w a w' :
  m w = (Returns a, w') -> try_catch m h w = (Returns a, w').
Proof. unfold try_catch. by intros ->. Qed.

Lemma try_catch_throws {A} (m : M A) h w e w' :
  m w = (Throws e, w') -> try_catch m h w = h e w'.
Proof. unfold try_catch. by intros ->. Qed.

Lemma pool_query_up {A} (q : db_query) (run : world -> option (A * world)) w :
  head (db_faults w) <> Some true ->
  pool_query q run w =
    let w1 := set_db w (tail (db_faults w)) (db_trace w ++ [q]) in
    match run w1 with
    | Some (a, w2) => (Returns a, w2)
    | None => (Throws (Error "statement rejected by the database"), w1)
    end.
Proof.
  intros H. unfold pool_query.
  destruct (db_faults w) as [|[] ?]; simpl in *; congruence.
Qed.

(** [getVoicePrompt] returns a prompt whatever the store does, and changes
    nothing but the connection state, the trace and the console. *)
Lemma getVoicePrompt_returns voicePreset w :
  exists prompt w', getVoicePrompt voicePreset w = (Returns prompt, w') /\ same_data w w'.
Proof.
  destruct voicePreset as [| | | |name| |]; simpl;
    try (eexists _, _; split; [reflexivity|apply same_data_refl]).
  unfold try_catch, bind, ret, console_error.
  destruct (pool_query _ _ w) as [[[|prompt ?]|e] w1] eqn:Hq;
    apply pool_query_select_same_data in Hq;
    eexists _, _; (split; [reflexivity|]); done.
Qed.


(** ** The [catch] blocks of the generation handlers

    The request parameters are [const] bindings of the [try] block, so
    the metadata object literal of the [catch] block reads names that are
    not in scope: the block throws before it reaches [logUsage]. *)
Lemma generate_script_catch_throws copy startTime userId body error w :
  generate_script_catch copy startTime userId body error w
  = (Throws (ReferenceError "topic is not defined"),
     set_console w (console w ++ [console_line "Script generation error:" error])).
Proof. reflexivity. Qed.

Lemma generate_hooks_catch_throws copy userId body error w :
  generate_hooks_catch copy userId body error w
  = (Throws (ReferenceError "topic is not defined"),
     set_console w (console w ++ [console_line "Hooks generation error:" error])).
Proof. reflexivity. Qed.

Lemma generate_titles_catch_throws copy userId body error w :
  generate_titles_catch copy userId body error w
  = (Throws (ReferenceError "topic is not defined"),
     set_console w (console w ++ [console_line "Titles generation error:" error])).
Proof. reflexivity. Qed.

(** Inside the [try] block the same names are bound. *)
Lemma try_scope_voicePreset body rest w :
  identifier (destructure body hooks_parameters ++ rest) "voicePreset" w
  = (Returns (body_field body "voicePreset"), w).
Proof. reflexivity. Qed.

Lemma fetch_responds call w status body latency :
  remote w = FetchResponds status body latency ->
  fetch call w
  = (Returns (status, body), set_fetch w (clock_ms w + latency) (fetch_trace w ++ [call])).
Proof. unfold fetch. by intros ->. Qed.

(** A reply that does not parse makes the [try] block of the hooks and
    titles handlers throw, and then the [catch] block throws in turn:
    nothing is logged and nothing is sent. *)
Lemma unparsable_reply_not_recorded JSON_parse copy g userId body w r w1 status text latency :
  g <> Script ->
  checkQuota userId (feature_of g) w = (Returns r, w1) ->
  allowed r = true ->
  remote w = FetchResponds status (BodyText text) latency ->
  JSON_parse (strip_code_fences (trim text)) = None ->
  exists w',
    generate JSON_parse copy g userId body w
    = (Throws (ReferenceError "topic is not defined"), w')
    /\ usage_logs w' = usage_logs w
    /\ sent w' = sent w.
Proof.
  intros Hg Hcheck Hallowed Hremote Hparse.
  pose proof (checkQuota_same_data _ _ _ _ _ Hcheck) as Hsame1.
  destruct g; [done| |]; simpl in Hcheck |- *.
  - destruct (getVoicePrompt_returns
                (js_or (body_field body "voicePreset") (VStr "default")) w1)
      as (prompt & w2 & Hvoice & Hsame2).
    pose proof (same_data_trans _ _ _ Hsame1 Hsame2)
      as (_ & _ & Hlogs & _ & _ & _ & Hrem & _ & Hsent & _).
    eexists. split.
    + unfold generate_hooks. erewrite try_catch_throws.
      { apply generate_hooks_catch_throws. }
      unfold generate_hooks_try.
      rewrite (bind_returns _ _ _ _ _ Hcheck), Hallowed. cbn [negb].
      rewrite (bind_returns _ _ _ _ _ (try_scope_voicePreset body _ w1)).
      rewrite (bind_returns _ _ _ _ _ Hvoice).
      erewrite bind_returns by (apply fetch_responds; by rewrite Hrem).
      unfold parse_structured. simpl. unfold bind at 1. simpl.
      unfold bind, ret. rewrite Hparse. reflexivity.
    + simpl. by rewrite Hlogs, Hsent.
  - pose proof Hsame1 as (_ & _ & Hlogs & _ & _ & _ & Hrem & _ & Hsent & _).
    eexists. split.
    + unfold generate_titles. erewrite try_catch_throws.
      { apply generate_titles_catch_throws. }
      unfold generate_titles_try.
      rewrite (bind_returns _ _ _ _ _ Hcheck), Hallowed. cbn [negb].
      erewrite bind_returns by (apply fetch_responds; by rewrite Hrem).
      unfold parse_structured. simpl. unfold bind at 1. simpl.
      unfold bind, ret. rewrite Hparse. reflexivity.
    + simpl. by rewrite Hlogs, Hsent.
Qed.

(** C9. The hooks route at a reply that is not JSON: [JSON.parse] throws,
    and so does the [catch] block, on the first name of its metadata
    literal.  No usage record with [success = false] is appended and the
    handler sends no failure response; its promise rejects with a
    [ReferenceError]. *)
Theorem hooks_unparsable_reply_unrecorded :
  let reply := "Here are eight hooks for your video: ..." in
  let w := set_remote sample_world (FetchResponds 200 (BodyText reply) 1800) in
  Reader.parse (strip_code_fences (trim reply)) = None
  /\ exists w',
       generate_hooks Reader.parse Server 1 {[ "topic" := "espresso" ]} w
       = (Throws (ReferenceError "topic is not defined"), w')
       /\ usage_logs w' = usage_logs w
       /\ sent w' = []
       /\ length (fetch_trace w') = 1%nat
       /\ console w' = ["Hooks generation error: SyntaxError: Unexpected token in JSON"].
Proof.
  split; [reflexivity|].
  eexists. split; [vm_compute; reflexivity|]. by repeat split.
Qed.

(** The scenario of the specification: a reply wrapped in [```json]
    fences is parsed as the text between the fences, recorded, and
    answered with status 200. *)
Example hooks_fenced_reply_parsed :
  exists w',
    generate_hooks Reader.parse Server 1 {[ "topic" := "espresso" ]} sample_world
    = (Returns (), w')
    /\ sent w' = [{| res_status := 200;
                     res_body := HooksBody (JArr [JNum 1; JNum 2; JNum 3]) |}]
    /\ usage_logs w'
       = sample_logs ++ [success_record Hooks 1 {[ "topic" := "espresso" ]} fenced_reply 2500
                           (current_timestamp sample_world)].
Proof.
  eexists. split; [vm_compute; reflexivity|]. by split.
Qed.

(** ** No failed attempt is ever recorded *)

Lemma only_successes_added_refl w : only_successes_added w w.
Proof. split; exists []; by rewrite app_nil_r. Qed.

Lemma only_successes_added_trans w1 w2 w3 :
  only_successes_added w1 w2 -> only_successes_added w2 w3 -> only_successes_added w1 w3.
Proof.
  intros [(r1 & Hr1 & Hf1) (a1 & Ha1 & Hg1)] [(r2 & Hr2 & Hf2) (a2 & Ha2 & Hg2)].
  split.
  - exists (r1 ++ r2). rewrite Hr2, Hr1, app_assoc. split; [done|]. by apply Forall_app.
  - exists (a1 ++ a2). rewrite Ha2, Ha1, app_assoc. split; [done|]. by apply Forall_app.
Qed.

Lemma same_data_only_successes w w' : same_data w w' -> only_successes_added w w'.
Proof.
  intros (_ & _ & Hlogs & _ & _ & _ & _ & _ & Hsent & _).
  split; exists []; by rewrite app_nil_r.
Qed.

Lemma keeps_ret {A} (a : A) : keeps (ret a).
Proof. intros w o w' [= _ <-]. apply only_successes_added_refl. Qed.

Lemma keeps_throw {A} e : keeps (@throw A e).
Proof. intros w o w' [= _ <-]. apply only_successes_added_refl. Qed.

Lemma keeps_bind {A B} (m : M A) (k : A -> M B) :
  keeps m -> (forall a, keeps (k a)) -> keeps (bind m k).
Proof.
  intros Hm Hk w o w'. unfold bind.
  destruct (m w) as [[a|e] w1] eqn:Hrun; intros Hrest.
  - eapply only_successes_added_trans; [by eapply Hm|by eapply Hk].
  - injection Hrest as <- <-. by eapply Hm.
Qed.

Lemma keeps_try_catch {A} (m : M A) h :
  keeps m -> (forall e, keeps (h e)) -> keeps (try_catch m h).
Proof.
  intros Hm Hh w o w'. unfold try_catch.
  destruct (m w) as [[a|e] w1] eqn:Hrun; intros Hrest.
  - injection Hrest as <- <-. by eapply Hm.
  - eapply only_successes_added_trans; [by eapply Hm|by eapply Hh].
Qed.

Lemma keeps_checkQuota userId featureType : keeps (checkQuota userId featureType).
Proof. intros w o w' Hrun. eapply same_data_only_successes, checkQuota_same_data, Hrun. Qed.

Lemma keeps_getVoicePrompt voicePreset : keeps (getVoicePrompt voicePreset).
Proof.
  intros w o w' Hrun.
  destruct (getVoicePrompt_returns voicePreset w) as (prompt & w1 & Hret & Hsame).
  rewrite Hret in Hrun. injection Hrun as _ <-. by apply same_data_only_successes.
Qed.

Lemma keeps_identifier sc x : keeps (identifier sc x).
Proof. unfold identifier. destruct (scope_lookup sc x); [apply keeps_ret|apply keeps_throw]. Qed.

Lemma keeps_object_shorthand sc names : keeps (object_shorthand sc names).
Proof.
  induction names as [|x names IH]; simpl; [apply keeps_ret|].
  apply keeps_bind; [apply keeps_identifier|]. intros v.
  apply keeps_bind; [done|]. intros vs. apply keeps_ret.
Qed.

Lemma keeps_Date_now : keeps Date_now.
Proof. intros w o w' [= _ <-]. apply only_successes_added_refl. Qed.

Lemma keeps_console_error label e : keeps (console_error label e).
Proof. intros w o w' [= _ <-]. split; exists []; by rewrite app_nil_r. Qed.

Lemma keeps_fetch call : keeps (fetch call).
Proof.
  intros w o w'. unfold fetch.
  destruct (remote w); intros [= _ <-]; split; exists []; by rewrite app_nil_r.
Qed.

Lemma keeps_content_text body : keeps (content_text body).
Proof. destruct body; [apply keeps_ret|apply keeps_throw]. Qed.

Lemma keeps_parse_structured JSON_parse body : keeps (parse_structured JSON_parse body).
Proof.
  unfold parse_structured. apply keeps_bind; [apply keeps_content_text|]. intros text.
  destruct (JSON_parse _); [apply keeps_ret|apply keeps_throw].
Qed.

Lemma keeps_res_json code body : code <> 500 -> keeps (res_json code body).
Proof.
  intros Hcode w o w' [= _ <-]. split.
  - exists []. by rewrite app_nil_r.
  - eexists. split; [done|]. by constructor.
Qed.

Lemma insert_usage_log_success userId featureType ok ms tokens msg meta w u w' :
  insert_usage_log userId featureType (VBool ok) ms tokens msg meta w = Some (u, w') ->
  exists row, w' = set_usage_logs w (usage_logs w ++ [row]) /\ success row = Some ok.
Proof.
  unfold insert_usage_log. intros H.
  destruct (as_integer userId) as [uid|]; simpl in H; [|done].
  destruct (as_text featureType) as [[feature|]|]; simpl in H; try done.
  destruct (as_integer ms) as [ms'|]; simpl in H; [|done].
  destruct (as_integer tokens) as [tokens'|]; simpl in H; [|done].
  destruct (as_text msg) as [msg'|]; simpl in H; [|done].
  destruct (references_user w uid); [|done].
  injection H as _ <-. by eexists.
Qed.

Lemma keeps_logUsage_success userId feature ms tokens rest :
  keeps (logUsage (userId :: feature :: VBool true :: ms :: tokens :: rest)).
Proof.
  intros w o w'. unfold logUsage, try_catch, pool_query, console_error.
  change (or_default (argument (userId :: feature :: VBool true :: ms :: tokens :: rest) 2)
            (VBool true)) with (VBool true).
  destruct (db_faults w) as [|[] faults]; simpl.
  2:{ intros [= _ <-]. split; exists []; by rewrite app_nil_r. }
  all: match goal with |- context [insert_usage_log ?a ?b ?c ?d ?e ?f ?g ?h] =>
         destruct (insert_usage_log a b c d e f g h) as [[[] w2]|] eqn:Hins end;
    [apply insert_usage_log_success in Hins as (row & -> & Hok)|];
    intros [= _ <-]; split; simpl;
    first [ by (exists []; rewrite app_nil_r)
          | eexists; split; [done|]; by constructor ].
Qed.

Ltac keeps_step :=
  first
    [ apply keeps_ret | apply keeps_throw | apply keeps_checkQuota
    | apply keeps_getVoicePrompt | apply keeps_identifier
    | apply keeps_object_shorthand | apply keeps_Date_now
    | apply keeps_console_error | apply keeps_fetch | apply keeps_content_text
    | apply keeps_parse_structured | (apply keeps_res_json; done)
    | apply keeps_logUsage_success
    | (apply keeps_bind; [|intros ?])
    | match goal with
      | |- keeps (if ?b then _ else _) => destruct b
      | |- keeps (match ?x with _ => _ end) => destruct x
      end ].

Lemma keeps_thrown {A} (m : M A) e (line : string) :
  (forall w, m w = (Throws e, set_console w (console w ++ [line]))) -> keeps m.
Proof.
  intros Hm w o w'. rewrite Hm. intros [= _ <-].
  split; exists []; by rewrite app_nil_r.
Qed.

(** Whatever happens in a generation handler, in either copy, the records
    it appends all have [success = true] and it never answers 500: the
    failure branch of the three routes cannot complete. *)
Lemma generation_never_records_failure JSON_parse copy g userId body :
  keeps (generate JSON_parse copy g userId body).
Proof.
  destruct g; simpl.
  - unfold generate_script. apply keeps_bind; [apply keeps_Date_now|]. intros startTime.
    apply keeps_try_catch.
    + unfold generate_script_try. simpl. repeat keeps_step.
    + intros e. eapply keeps_thrown. intros w. apply generate_script_catch_throws.
  - unfold generate_hooks. apply keeps_try_catch.
    + unfold generate_hooks_try. simpl. repeat keeps_step.
    + intros e. eapply keeps_thrown. intros w. apply generate_hooks_catch_throws.
  - unfold generate_titles. apply keeps_try_catch.
    + unfold generate_titles_try. simpl. repeat keeps_step.
    + intros e. eapply keeps_thrown. intros w. apply generate_titles_catch_throws.
Qed.

(** ** Usage records of successful generations *)

Lemma checkQuota_allowed_user userId featureType w r w1 :
  checkQuota userId featureType w = (Returns r, w1) ->
  allowed r = true ->
  is_Some (users w !! userId).
Proof.
  unfold checkQuota, try_catch.
  destruct (checkQuota_body userId featureType w) as [[r'|e] w2] eqn:Hbody.
  2:{ unfold bind, console_error, ret. intros; simplify_eq/=. }
  intros; simplify_eq/=. revert Hbody. unfold checkQuota_body, bind, ret.
  unfold pool_query at 1. unfold select at 1.
  destruct (db_faults w) as [|[] ?]; simpl; try (intros; simplify_eq/=; fail);
    destruct (users w !! userId); simpl; try done; intros; simplify_eq/=.
Qed.

Lemma voice_preset_name body :
  exists name, js_or (body_field body "voicePreset") (VStr "default") = VStr name.
Proof.
  unfold js_or, body_field.
  destruct (body !! "voicePreset") as [[|c s]|]; simpl; eauto.
Qed.

Lemma getVoicePrompt_answered name w :
  head (db_faults w) <> Some true ->
  exists prompt,
    getVoicePrompt (VStr name) w
    = (Returns prompt, set_db w (tail (db_faults w)) (db_trace w ++ [SelectVoicePreset name])).
Proof.
  intros Hup. unfold getVoicePrompt, try_catch, bind.
  rewrite pool_query_select by done. simpl.
  destruct (voice_presets w !! name); simpl; eauto.
Qed.

Lemma logUsage_stores userId feature ok ms tokens meta w :
  head (db_faults w) <> Some true ->
  is_Some (users w !! userId) ->
  logUsage [VNum userId; VStr feature; VBool ok; VNum ms; VNum tokens; VNull; VObj meta] w
  = (Returns (),
     set_usage_logs (set_db w (tail (db_faults w)) (db_trace w ++ [InsertUsageLog]))
       (usage_logs w ++
        [{| user_id := Some userId; feature_type := feature; tokens_used := Some tokens;
            processing_time_ms := Some ms; success := Some ok; error_message := None;
            metadata := JSON_stringify (VObj meta);
            created_at := current_timestamp w |}])).
Proof.
  intros Hup Huser. unfold logUsage, try_catch.
  rewrite pool_query_up by done. cbv zeta.
  unfold insert_usage_log, argument, or_default. simpl.
  by rewrite bool_decide_eq_true_2.
Qed.

Lemma stringify_request_parameters names body :
  JSON_stringify (VObj ((fun x => (x, body_field body x)) <$> names))
  = Some (recorded_parameters names body).
Proof.
  unfold recorded_parameters. simpl. do 2 f_equal.
  induction names as [|x names IH]; [done|].
  rewrite fmap_cons. csimpl. rewrite IH. unfold body_field.
  by destruct (body !! x).
Qed.

Lemma try_scope_metadata g userId body startTime w :
  object_shorthand
    (match g with
     | Script => destructure body script_parameters
                   ++ script_handler_scope startTime userId body
     | Hooks => destructure body hooks_parameters ++ handler_scope userId body
     | Titles => destructure body titles_parameters ++ handler_scope userId body
     end) (recorded_names g) w
  = (Returns ((fun x => (x, body_field body x)) <$> recorded_names g), w).
Proof. by destruct g. Qed.


Lemma try_scope_script_voicePreset userId body startTime w :
  identifier (destructure body script_parameters
                ++ script_handler_scope startTime userId body) "voicePreset" w
  = (Returns (body_field body "voicePreset"), w).
Proof. reflexivity. Qed.


Lemma parse_structured_parsed JSON_parse text data w :
  JSON_parse (strip_code_fences (trim text)) = Some data ->
  parse_structured JSON_parse (BodyText text) w = (Returns data, w).
Proof.
  intros Hparse. unfold parse_structured, content_text, bind, ret. by rewrite Hparse.
Qed.

Lemma generate_hooks_success JSON_parse userId body w r w1 status text latency data :
  checkQuota userId "hooks" w = (Returns r, w1) ->
  allowed r = true ->
  available 2 w1 ->
  remote w = FetchResponds status (BodyText text) latency ->
  JSON_parse (strip_code_fences (trim text)) = Some data ->
  exists w',
    generate_hooks JSON_parse Server userId body w = (Returns (), w')
    /\ usage_logs w'
       = usage_logs w ++ [success_record Hooks userId body text latency (current_timestamp w)]
    /\ sent w' = sent w ++ [{| res_status := 200; res_body := HooksBody data |}]
    /\ exists call, fetch_trace w' = fetch_trace w ++ [call].
Proof.
  intros Hcheck Hallowed Hup Hremote Hparse.
  pose proof (checkQuota_same_data _ _ _ _ _ Hcheck)
    as (Husers & _ & Hlogs & _ & Hnow & Hclock & Hrem & Hfetch & Hsent & _).
  pose proof (checkQuota_allowed_user _ _ _ _ _ Hcheck Hallowed) as Huser.
  destruct (voice_preset_name body) as [name Hname].
  destruct (getVoicePrompt_answered name w1 (available_head _ _ Hup)) as [prompt Hvoice].
  assert (head (tail (db_faults w1)) <> Some true) as Hup'.
  { apply (available_head 0 (set_db w1 (tail (db_faults w1)) [])), available_tail, Hup. }
  eexists. split.
  - unfold generate_hooks. apply try_catch_returns. unfold generate_hooks_try.
    rewrite (bind_returns _ _ _ _ _ Hcheck), Hallowed. cbn [negb].
    rewrite (bind_returns _ _ _ _ _ (try_scope_voicePreset body _ w1)).
    rewrite Hname, (bind_returns _ _ _ _ _ Hvoice).
    erewrite bind_returns by (apply fetch_responds; simpl; by rewrite Hrem).
    cbn [fst snd].
    erewrite bind_returns by (by apply parse_structured_parsed).
    erewrite bind_returns by apply (try_scope_metadata Hooks _ _ 0).
    erewrite bind_returns.
    2:{ apply logUsage_stores; simpl; [done | by rewrite Husers]. }
    reflexivity.
  - pose proof (stringify_request_parameters hooks_metadata body) as Hmeta.
    cbn -[JSON_stringify recorded_parameters] in Hmeta.
    cbn -[JSON_stringify]. rewrite Hlogs, Hsent, Hfetch, Hnow, Hmeta.
    eauto.
Qed.





(** The script route is sent [keywords] and [customPrompt] and records
    neither. *)
Example script_metadata_omits_keywords :
  let body : gmap string string :=
    {[ "topic" := "espresso"; "duration" := "5-7"; "keywords" := "crema";
       "customPrompt" := "mention the grinder" ]} in
  let w := set_usage_logs sample_world [] in
  exists w' row,
    generate_script Server 1 body w = (Returns (), w')
    /\ usage_logs w' = [row]
    /\ metadata row = Some (JObj [("topic", JStr "espresso"); ("duration", JStr "5-7")])
    /\ processing_time_ms row = Some 2500.
Proof.
  eexists _, _. split; [vm_compute; reflexivity|]. by repeat split.
Qed.

(** The add-on routes pass nine arguments to the seven parameters of
    [logUsage]: the metadata object is the ninth and is dropped, and the
    record holds JSON [null]. *)
Example add_on_routes_lose_metadata :
  let body : gmap string string := {[ "topic" := "espresso"; "duration" := "5-7" ]} in
  let w := set_usage_logs sample_world [] in
  exists w' row,
    generate_script AddOnRoutes 1 body w = (Returns (), w')
    /\ usage_logs w' = [row]
    /\ metadata row = Some JNull.
Proof.
  eexists _, _. split; [vm_compute; reflexivity|]. by repeat split.
Qed.

(** ** Seeding of the quota policies *)

Lemma upsert_quota_lookup table tier excluded tier' :
  upsert_quota table tier excluded !! tier'
  = if decide (tier = tier')
    then Some (match table !! tier with
               | Some existing =>
                   set_monthly_script_limit existing (monthly_script_limit excluded)
               | None => excluded
               end)
    else table !! tier'.
Proof.
  unfold upsert_quota.
  destruct (table !! tier) eqn:Hrow; rewrite lookup_insert; by case_decide.
Qed.

Lemma seed_usage_quotas_lookup table tier :
  seed_usage_quotas table !! tier
  = match seeded_row seeded_quotas tier with
    | Some excluded =>
        Some (match table !! tier with
              | Some existing =>
                  set_monthly_script_limit existing (monthly_script_limit excluded)
              | None => excluded
              end)
    | None => table !! tier
    end.
Proof.
  unfold seed_usage_quotas, seeded_quotas. simpl.
  rewrite !upsert_quota_lookup. simpl.
  repeat case_decide; simplify_eq; try done.
  all: by rewrite ?upsert_quota_lookup; repeat case_decide.
Qed.

Lemma set_monthly_script_limit_twice row n m :
  set_monthly_script_limit (set_monthly_script_limit row n) m
  = set_monthly_script_limit row m.
Proof. done. Qed.

Lemma set_monthly_script_limit_same row :
  set_monthly_script_limit row (monthly_script_limit row) = row.
Proof. by destruct row. Qed.

(** C8, as amended.  Seeding twice gives the same table as seeding once.
    On an existing row of a seeded tier it overwrites
    [monthly_script_limit] with the seeded value, whether that is higher
    or lower, and keeps the seven other limits and the enabled features;
    it inserts the rows that are missing and leaves other tiers alone. *)
Theorem seeding_idempotent_resets_script_limit table :
  seed_usage_quotas (seed_usage_quotas table) = seed_usage_quotas table
  /\ (forall tier existing excluded,
        table !! tier = Some existing ->
        seeded_row seeded_quotas tier = Some excluded ->
        seed_usage_quotas table !! tier
        = Some (set_monthly_script_limit existing (monthly_script_limit excluded)))
  /\ (forall tier excluded,
        table !! tier = None ->
        seeded_row seeded_quotas tier = Some excluded ->
        seed_usage_quotas table !! tier = Some excluded)
  /\ (forall tier,
        seeded_row seeded_quotas tier = None ->
        seed_usage_quotas table !! tier = table !! tier).
Proof.
  split; [|repeat split].
  - apply map_eq. intros tier. rewrite !seed_usage_quotas_lookup.
    destruct (seeded_row seeded_quotas tier) as [excluded|]; [|done].
    destruct (table !! tier) as [existing|].
    + by rewrite set_monthly_script_limit_twice.
    + by rewrite set_monthly_script_limit_same.
  - intros tier existing excluded Hrow Hseed.
    by rewrite seed_usage_quotas_lookup, Hseed, Hrow.
  - intros tier excluded Hrow Hseed.
    by rewrite seed_usage_quotas_lookup, Hseed, Hrow.
  - intros tier Hseed. by rewrite seed_usage_quotas_lookup, Hseed.
Qed.

Lemma seeding_idempotent_resets_script_limit_witness :
  let tuned := QuotaRow 50 99 20 5 5 10 10 10 ["script"; "hooks"] in
  let table : gmap string quota_row := {[ "free" := tuned; "trial" := starter_quota ]} in
  seed_usage_quotas (seed_usage_quotas table) = seed_usage_quotas table
  /\ seed_usage_quotas table !! "free" = Some (QuotaRow 5 99 20 5 5 10 10 10 ["script"; "hooks"])
  /\ seed_usage_quotas table !! "pro"
     = Some (QuotaRow 200 400 800 200 200 400 400 400 all_features)
  /\ seed_usage_quotas table !! "trial" = Some starter_quota.
Proof.
  intros tuned table.
  destruct (seeding_idempotent_resets_script_limit table)
    as (Hidem & Hexisting & Hmissing & Hother).
  split; [exact Hidem|]. split; [|split].
  - exact (Hexisting "free" tuned _ eq_refl eq_refl).
  - exact (Hmissing "pro" _ eq_refl eq_refl).
  - exact (Hother "trial" eq_refl).
Defined.


(** C8 fails as stated: an operator raised the script limit of the free
    tier to 50, and the next start of the server puts it back to 5. *)
Lemma seeding_lowers_a_tuned_limit : ~ seeding_never_lowers_a_limit.
Proof.
  intros Hclaim.
  pose (tuned := QuotaRow 50 10 20 5 5 10 10 10 all_features).
  specialize (Hclaim {[ "free" := tuned ]} "free" tuned
                (QuotaRow 5 10 20 5 5 10 10 10 all_features) eq_refl eq_refl).
  inversion Hclaim as [|? ? ? ? Hle _]. simpl in Hle. lia.
Qed.

(** ** Routes and rate limiting *)






Lemma through_cons m rest handler req :
  through (m :: rest) handler req
  = (let* next := run_middleware m req in
     match next with
     | Some req' => through rest handler req'
     | None => ret ()
     end).
Proof. reflexivity. Qed.



(** The same request served by the hooks route: the client has had its
    ten generations in this window and is turned away before the handler
    runs. *)
Example eleventh_hooks_request_rejected :
  let req := Request (ValidToken 1) "203.0.113.7" None {[ "topic" := "espresso" ]} in
  let w := set_rate_limit_hits sample_world
             {[ ("generationLimiter", "203.0.113.7") := (10, 1750000030000) ]} in
  exists run w',
    serve Reader.parse GenerateHooks req = Some run
    /\ run w = (Returns (), w')
    /\ sent w' = [{| res_status := 429;
                     res_body := ErrorBody (Some "Generation rate limit exceeded") |}]
    /\ db_trace w' = [] /\ fetch_trace w' = [] /\ usage_logs w' = sample_logs.
Proof.
  eexists _, _. split; [reflexivity|]. split; [vm_compute; reflexivity|]. by repeat split.
Qed.



(** The scenario of section 8 on the generation routes: of 31 requests of
    one client within a minute the first ten reach the handler, the next
    twenty are stopped by the generation limiter and the 31st by the
    general limiter. *)
Example thirty_first_request_rate_limited :
  let req := Request (ValidToken 1) "203.0.113.7" None ∅ in
  let run := repeat_request 31 (through generation_chain (fun _ => ret ()) req) sample_world in
  run.1 = Returns ()
  /\ sent run.2
     = replicate 20 {| res_status := 429;
                       res_body := ErrorBody (Some "Generation rate limit exceeded") |}
       ++ [{| res_status := 429; res_body := ErrorBody (Some "Rate limit exceeded") |}]
  /\ db_trace run.2 = [].
Proof. vm_compute. done. Qed.

(** ** Code fences *)

Lemma append_cons a s t : String a s +:+ t = String a (s +:+ t).
Proof. reflexivity. Qed.

Lemma append_empty_r s : s +:+ "" = s.
Proof. induction s as [|a s IH]; [done|]. by rewrite append_cons, IH. Qed.

Lemma append_assoc s t u : (s +:+ t) +:+ u = s +:+ (t +:+ u).
Proof. induction s as [|a s IH]; [done|]. by rewrite !append_cons, IH. Qed.

Lemma rev_app_rev_app s1 s2 s3 :
  String.rev_app (String.rev_app s1 s2) s3 = String.rev_app s2 (s1 +:+ s3).
Proof.
  revert s2 s3. induction s1 as [|a s1 IH]; intros s2 s3; [done|].
  rewrite append_cons. simpl. by rewrite IH.
Qed.

Lemma rev_app_append s1 s2 acc :
  String.rev_app (s1 +:+ s2) acc = String.rev_app s2 (String.rev_app s1 acc).
Proof.
  revert acc. induction s1 as [|a s1 IH]; intros acc; [done|].
  rewrite append_cons. simpl. apply IH.
Qed.

Lemma rev_involutive s : String.rev (String.rev s) = s.
Proof. unfold String.rev. by rewrite rev_app_rev_app, append_empty_r. Qed.

Lemma trim_fenced inner : trim (fenced inner) = fenced inner.
Proof.
  unfold trim.
  assert (trim_start (fenced inner) = fenced inner) as -> by reflexivity.
  assert (trim_start (String.rev (fenced inner)) = String.rev (fenced inner)) as ->.
  { unfold String.rev, fenced. rewrite !append_cons. simpl.
    rewrite !rev_app_append. reflexivity. }
  apply rev_involutive.
Qed.

Lemma prefix_head_ne a pat c s :
  a <> c -> String.prefix (String a pat) (String c s) = false.
Proof. intros Hne. simpl. by destruct (ascii_dec a c). Qed.

Lemma remove_all_no_match pat c rest :
  String.prefix pat (String c rest) = false ->
  remove_all pat 0 (String c rest) = String c (remove_all pat 0 rest).
Proof. intros Hno. change (remove_all pat 0 (String c rest)) with
         (if String.prefix pat (String c rest)
          then remove_all pat
                 (String.length pat - 1
                  + match String.get (String.length pat) (String c rest) with
                    | Some "010"%char => 1
                    | _ => 0
                    end)%nat rest
          else String c (remove_all pat 0 rest)).
       by rewrite Hno.
Qed.

Lemma remove_all_no_backtick pat s rest :
  has_backtick s = false ->
  remove_all (String "`" pat) 0 (s +:+ rest) = s +:+ remove_all (String "`" pat) 0 rest.
Proof.
  induction s as [|c s IH]; [done|].
  cbn [has_backtick]. intros [Hc Hs]%orb_false_elim. apply bool_decide_eq_false in Hc.
  rewrite !append_cons, remove_all_no_match by (apply prefix_head_ne; congruence).
  by rewrite IH.
Qed.

Lemma has_backtick_append s t :
  has_backtick (s +:+ t) = has_backtick s || has_backtick t.
Proof.
  induction s as [|c s IH]; [done|]. rewrite append_cons. simpl.
  by rewrite IH, orb_assoc.
Qed.

(** A reply that is a [json] code fence around text without backticks is
    stripped to that text and the line feed that ended it. *)
Lemma strip_code_fences_fenced inner :
  has_backtick inner = false ->
  strip_code_fences (trim (fenced inner)) = inner +:+ String "010" "".
Proof.
  intros Hinner. rewrite trim_fenced. unfold strip_code_fences, fenced.
  assert (has_backtick (inner +:+ String "010" "") = false) as Hline
    by (by rewrite has_backtick_append, Hinner).
  change (String "010" "```") with (String "010" "" +:+ "```").
  rewrite <- (append_assoc inner).
  change (remove_all "```json" 0
            ("```json" +:+ String "010" ((inner +:+ String "010" "") +:+ "```")))
    with (remove_all "```json" 0 ((inner +:+ String "010" "") +:+ "```")).
  rewrite (remove_all_no_backtick "``json") by done.
  change (remove_all "```json" 0 "```") with "```".
  rewrite (remove_all_no_backtick "``") by done.
  change (remove_all "```" 0 "```") with "".
  apply append_empty_r.
Qed.

(** On the hooks route such a reply yields the data parsed from the text
    between the fences. *)
Lemma hooks_fenced_reply JSON_parse userId body w r w1 status inner latency data :
  checkQuota userId "hooks" w = (Returns r, w1) ->
  allowed r = true ->
  available 2 w1 ->
  remote w = FetchResponds status (BodyText (fenced inner)) latency ->
  has_backtick inner = false ->
  JSON_parse (inner +:+ String "010" "") = Some data ->
  exists w',
    generate_hooks JSON_parse Server userId body w = (Returns (), w')
    /\ sent w' = sent w ++ [{| res_status := 200; res_body := HooksBody data |}].
Proof.
  intros Hcheck Hallowed Hup Hremote Hinner Hparse.
  rewrite <- (strip_code_fences_fenced inner Hinner) in Hparse.
  destruct (generate_hooks_success JSON_parse userId body w r w1 status (fenced inner)
              latency data Hcheck Hallowed Hup Hremote Hparse)
    as (w' & Hrun & _ & Hsent & _).
  eauto.
Qed.

(** ** More on the quota evaluator *)

(** X1. A quota check only reads.  Whatever the store does, the check
    leaves the tables, the clocks, the remote calls and the responses as
    they were; it sends at most three statements, and none of them is the
    [INSERT] of the usage ledger. *)
Theorem checkQuota_only_reads userId featureType w :
  let w' := (checkQuota userId featureType w).2 in
  same_data w w'
  /\ exists qs, db_trace w' = db_trace w ++ qs
                /\ (length qs <= 3)%nat
                /\ InsertUsageLog ∉ qs.
Proof.
  cbv zeta. split.
  { eapply checkQuota_same_data, surjective_pairing. }
  unfold checkQuota, try_catch, checkQuota_body, bind, ret, pool_query, select,
    console_error.
  destruct (db_faults w) as [|b0 [|b1 [|b2 faults]]] eqn:Hfaults;
    repeat match goal with b : bool |- _ => destruct b end;
    simpl; repeat (case_match; simplify_eq/=);
    rewrite <- ?app_assoc; simpl;
    (eexists; split; [reflexivity|]; split; [simpl; lia|]);
    rewrite ?elem_of_cons, elem_of_nil; intuition discriminate.
Qed.


Lemma usage_count_app userId featureType w more :
  usage_count userId featureType (set_usage_logs w (usage_logs w ++ more))
  = usage_count userId featureType w
    + Z.of_nat (length (filter (fun r => counted userId featureType (current_timestamp w) r = true)
                               more)).
Proof.
  unfold usage_count. simpl. rewrite filter_app, length_app. lia.
Qed.





(** X3. The quota renews with the month.  When every record of the
    ledger is older than the first instant of the current month, the
    check counts zero uses, whatever was used before, and allows the
    request exactly when the limit is positive. *)
Theorem quota_resets_with_the_month userId featureType w u q lim :
  available 3 w ->
  users w !! userId = Some u ->
  usage_quotas w !! access_level u = Some q ->
  featureType ∈ features_enabled q ->
  feature_limit featureType q = Some lim ->
  Forall (fun r => ts_leb (date_trunc_month (current_timestamp w)) (created_at r) = false)
         (usage_logs w) ->
  exists w',
    checkQuota userId featureType w = (Returns (verdict 0 lim), w')
    /\ (allowed (verdict 0 lim) = true <-> 0 < lim).
Proof.
  intros Hup Hu Hq Hin Hlim Hold.
  rewrite (checkQuota_counted userId featureType w u q) by done. rewrite Hlim.
  assert (usage_count userId featureType w = 0) as ->.
  { unfold usage_count.
    replace (filter _ (usage_logs w)) with (@nil usage_log); [done|].
    symmetry. induction Hold as [|r l Hr _ IH]; [done|].
    rewrite filter_cons, <- IH. rewrite decide_False; [done|].
    unfold counted. rewrite Hr, andb_false_r. done. }
  eexists. split; [done|]. apply verdict_allowed.
Qed.

Lemma quota_resets_with_the_month_witness :
  let w := World (users sample_world) (usage_quotas sample_world) sample_logs ∅
             (Timestamp 2025 7 1 0) [] [] 0 (FetchRejects (Error "offline")) [] [] [] ∅ in
  available 3 w
  /\ Forall (fun r => ts_leb (date_trunc_month (current_timestamp w)) (created_at r) = false)
            (usage_logs w)
  /\ exists w', checkQuota 1 "script" w = (Returns (verdict 0 5), w')
                /\ (allowed (verdict 0 5) = true <-> 0 < 5).
Proof.
  intros w.
  assert (available 3 w) as Hup by compute_done.
  assert (Forall (fun r => ts_leb (date_trunc_month (current_timestamp w)) (created_at r) = false)
            (usage_logs w)) as Hold by compute_done.
  do 2 (split; [done|]).
  apply (quota_resets_with_the_month 1 "script" w (UserRow "ada@example.org" "free" "default")
           (QuotaRow 5 10 20 5 5 10 10 10 all_features)); try done. compute_done.
Defined.

Lemma usage_count_nonneg userId featureType w : 0 <= usage_count userId featureType w.
Proof. unfold usage_count. lia. Qed.

(** X4. A limit that is reached stays reached.  Whatever records are
    appended to the ledger, successful or not, of this user or another,
    the check (with the store answering) keeps denying with the message
    that names the limit. *)
Theorem quota_stays_exhausted userId featureType w u q lim more :
  available 3 w ->
  users w !! userId = Some u ->
  usage_quotas w !! access_level u = Some q ->
  featureType ∈ features_enabled q ->
  feature_limit featureType q = Some lim ->
  lim <= usage_count userId featureType w ->
  exists r w',
    checkQuota userId featureType (set_usage_logs w (usage_logs w ++ more)) = (Returns r, w')
    /\ allowed r = false
    /\ reason r = Some (limit_reached_message lim).
Proof.
  intros Hup Hu Hq Hin Hlim Hfull.
  rewrite (checkQuota_counted userId featureType _ u q) by done. rewrite Hlim.
  rewrite usage_count_app. eexists _, _. split; [done|].
  rewrite verdict_reason. simpl.
  rewrite bool_decide_eq_false_2; [done|lia].
Qed.

Lemma quota_stays_exhausted_witness :
  available 3 sample_world
  /\ 5 <= usage_count 1 "script" sample_world
  /\ exists r w',
       checkQuota 1 "script"
         (set_usage_logs sample_world
            (usage_logs sample_world ++ [script_log 1 true (Timestamp 2025 6 15 0);
                                         script_log 1 false (Timestamp 2025 6 15 1)]))
       = (Returns r, w')
       /\ allowed r = false
       /\ reason r = Some (limit_reached_message 5).
Proof.
  assert (available 3 sample_world) as Hup by compute_done.
  assert (5 <= usage_count 1 "script" sample_world) as Hfull by compute_done.
  do 2 (split; [done|]).
  apply (quota_stays_exhausted 1 "script" sample_world
           (UserRow "ada@example.org" "free" "default")
           (QuotaRow 5 10 20 5 5 10 10 10 all_features)); try done. compute_done.
Defined.

(** ** More on the usage ledger *)

Lemma insert_usage_log_unknown_user userId featureType ok ms tokens msg meta w :
  users w !! userId = None ->
  insert_usage_log (VNum userId) featureType ok ms tokens msg meta w = None.
Proof.
  intros Hnone. unfold insert_usage_log. simpl.
  destruct (as_text featureType) as [[feature|]|]; simpl; try done.
  destruct (as_boolean ok) as [ok'|]; simpl; [|done].
  destruct (as_integer ms) as [ms'|]; simpl; [|done].
  destruct (as_integer tokens) as [tokens'|]; simpl; [|done].
  destruct (as_text msg) as [msg'|]; simpl; [|done].
  rewrite bool_decide_eq_false_2; [done|]. rewrite Hnone. by intros [? ?].
Qed.

(** X5. A usage record for a user id that [users] does not hold is never
    stored, the foreign key refusing it: whether the store answers or
    not, [logUsage] returns normally, stores nothing, sends nothing and
    writes one line to the console. *)
Theorem logUsage_unknown_user_stores_nothing userId rest w :
  users w !! userId = None ->
  exists w',
    logUsage (VNum userId :: rest) w = (Returns (), w')
    /\ usage_logs w' = usage_logs w
    /\ sent w' = sent w
    /\ exists line, console w' = console w ++ [line].
Proof.
  intros Hnone. unfold logUsage, try_catch, pool_query, console_error.
  change (argument (VNum userId :: rest) 0) with (VNum userId).
  destruct (db_faults w) as [|[] faults]; simpl;
    rewrite ?insert_usage_log_unknown_user by done;
    eexists; (split; [reflexivity|]); simpl; eauto.
Qed.

Lemma logUsage_unknown_user_stores_nothing_witness :
  users sample_world !! 99 = None
  /\ exists w',
       logUsage [VNum 99; VStr "script"; VBool true; VNum 10; VNum 20; VNull; VObj []]
         sample_world = (Returns (), w')
       /\ usage_logs w' = usage_logs sample_world
       /\ sent w' = sent sample_world
       /\ exists line, console w' = console sample_world ++ [line].
Proof.
  split; [reflexivity|].
  exact (logUsage_unknown_user_stores_nothing 99 _ sample_world eq_refl).
Defined.

(** ** The voice prompt *)

(** X6. [getVoicePrompt] always returns a prompt and changes no data.
    When the store answers, the prompt is the stored one of the preset, or
    the built-in default for a name the table does not hold; when the
    store is down, it is the built-in default. *)
Theorem getVoicePrompt_falls_back voicePreset w :
  exists prompt w',
    getVoicePrompt voicePreset w = (Returns prompt, w')
    /\ same_data w w'
    /\ (forall name, voicePreset = VStr name -> head (db_faults w) <> Some true ->
          prompt = default default_voice_prompt (voice_presets w !! name))
    /\ (head (db_faults w) = Some true -> prompt = default_voice_prompt).
Proof.
  destruct (getVoicePrompt_returns voicePreset w) as (prompt & w' & Hrun & Hsame).
  exists prompt, w'. split; [done|]. split; [done|]. split.
  - intros name -> Hup. revert Hrun. unfold getVoicePrompt, try_catch, bind.
    rewrite pool_query_select by done. simpl.
    destruct (voice_presets w !! name); simpl; by intros [= <- _].
  - intros Hfault. revert Hrun. destruct voicePreset; simpl; try by intros [= <- _].
    unfold try_catch, bind. rewrite pool_query_fault by done.
    unfold console_error, ret. by intros [= <- _].
Qed.

Lemma getVoicePrompt_falls_back_witness :
  (exists w', getVoicePrompt (VStr "default") sample_world
              = (Returns "You are an expert YouTube content creator with deep knowledge of viral content strategies.", w'))
  /\ (exists w', getVoicePrompt (VStr "pirate") sample_world
                 = (Returns default_voice_prompt, w'))
  /\ (exists w', getVoicePrompt (VStr "default") (set_db sample_world [true] [])
                 = (Returns default_voice_prompt, w')).
Proof.
  repeat split.
  - destruct (getVoicePrompt_falls_back (VStr "default") sample_world)
      as (prompt & w' & Hrun & _ & Hstored & _).
    exists w'. rewrite Hrun. by rewrite (Hstored "default" eq_refl ltac:(done)).
  - destruct (getVoicePrompt_falls_back (VStr "pirate") sample_world)
      as (prompt & w' & Hrun & _ & Hstored & _).
    exists w'. rewrite Hrun. by rewrite (Hstored "pirate" eq_refl ltac:(done)).
  - destruct (getVoicePrompt_falls_back (VStr "default") (set_db sample_world [true] []))
      as (prompt & w' & Hrun & _ & _ & Hfault).
    exists w'. rewrite Hrun. by rewrite (Hfault eq_refl).
Defined.

(** ** Authentication *)

(** X7. Authentication comes first.  On every route that authenticates,
    [authenticateToken] is the first middleware, so a request without a
    token is answered 401 and one with a token that does not verify is
    answered 403 before any limiter counts it and before the handler
    runs: the response is the only change of the world. *)
Theorem unauthenticated_request_stops_first :
  (forall r, r ∈ routes -> authenticateToken ∈ route_middleware r ->
             head (route_middleware r) = Some authenticateToken)
  /\ (forall rest handler req w,
        authorization req = NoToken ->
        through (authenticateToken :: rest) handler req w
        = (Returns (),
           set_sent w (sent w ++ [{| res_status := 401;
                                     res_body := ErrorBody (Some "Access token required") |}])))
  /\ (forall rest handler req w,
        authorization req = InvalidToken ->
        through (authenticateToken :: rest) handler req w
        = (Returns (),
           set_sent w (sent w ++ [{| res_status := 403;
                                     res_body := ErrorBody (Some "Invalid token") |}]))).
Proof.
  split; [|split].
  - intros r. unfold routes. rewrite !elem_of_cons, elem_of_nil.
    intros H; repeat destruct H as [->|H]; try done; simpl;
      rewrite ?elem_of_cons, ?elem_of_nil; intuition discriminate.
  - intros rest handler req w Hauth. rewrite through_cons.
    unfold run_middleware. simpl. by rewrite Hauth.
  - intros rest handler req w Hauth. rewrite through_cons.
    unfold run_middleware. simpl. by rewrite Hauth.
Qed.

Lemma split_space_nonempty s : split_space s <> [].
Proof. destruct s as [|c s]; simpl; [done|]. case_bool_decide; [done|]. by destruct (split_space s). Qed.

Lemma split_space_no_space s : has_space s = false -> split_space s = [s].
Proof.
  induction s as [|c s IH]; [done|]. simpl.
  intros [Hc Hs]%orb_false_elim. rewrite Hc, (IH Hs). done.
Qed.

Lemma split_space_append s rest :
  has_space s = false ->
  split_space (s +:+ String " " rest) = s :: split_space rest.
Proof.
  induction s as [|c s IH]; [done|]. cbn [has_space].
  intros [Hc Hs]%orb_false_elim. rewrite append_cons. simpl. rewrite Hc, (IH Hs). done.
Qed.

(** X8. The token is the second piece of the header, split at single
    spaces.  The scheme word is not looked at ([Basic x] passes [x] on as
    the token); a header of one word, or with two spaces after the scheme,
    carries no token, and neither does a missing header. *)
Theorem bearer_token_is_second_piece :
  (forall scheme token,
     has_space scheme = false -> has_space token = false -> token <> "" ->
     bearer_token (Some (scheme +:+ String " " token)) = Some token)
  /\ (forall header, has_space header = false -> bearer_token (Some header) = None)
  /\ (forall scheme rest,
        has_space scheme = false ->
        bearer_token (Some (scheme +:+ String " " (String " " rest))) = None)
  /\ bearer_token None = None.
Proof.
  repeat split.
  - intros scheme token Hscheme Htoken Hne. unfold bearer_token. simpl.
    rewrite split_space_append, split_space_no_space by done. simpl.
    by rewrite bool_decide_eq_false_2.
  - intros header Hheader. unfold bearer_token. simpl.
    by rewrite split_space_no_space.
  - intros scheme rest Hscheme. unfold bearer_token. simpl.
    rewrite split_space_append by done. simpl. done.
Qed.

Lemma bearer_token_is_second_piece_witness :
  bearer_token (Some "Bearer abc.def.ghi") = Some "abc.def.ghi"
  /\ bearer_token (Some "Basic abc.def.ghi") = Some "abc.def.ghi"
  /\ bearer_token (Some "abc.def.ghi") = None
  /\ bearer_token (Some "Bearer  abc.def.ghi") = None.
Proof.
  destruct bearer_token_is_second_piece as (Hsecond & Hone & Htwo & _).
  split; [exact (Hsecond "Bearer" "abc.def.ghi" eq_refl eq_refl ltac:(done))|].
  split; [exact (Hsecond "Basic" "abc.def.ghi" eq_refl eq_refl ltac:(done))|].
  split; [exact (Hone "abc.def.ghi" eq_refl)|].
  exact (Htwo "Bearer" "abc.def.ghi" eq_refl).
Defined.

(** ** Replies of the generation service *)




(** ** Script statistics *)





(** X11. A script request without [duration] that passes the quota
    check never reaches the generation service: building the prompt
    throws a [TypeError], the [catch] block throws in turn, and the
    handler ends with a [ReferenceError], having called nothing, recorded
    nothing and sent nothing.  The last console line is that of the
    [TypeError]. *)
Theorem script_without_duration_stops_before_remote copy userId body w r w1 :
  checkQuota userId "script" w = (Returns r, w1) ->
  allowed r = true ->
  body !! "duration" = None ->
  exists w',
    generate_script copy userId body w
    = (Throws (ReferenceError "topic is not defined"), w')
    /\ fetch_trace w' = fetch_trace w
    /\ usage_logs w' = usage_logs w
    /\ sent w' = sent w
    /\ last (console w')
       = Some "Script generation error: TypeError: Cannot read properties of undefined (reading 'split')".
Proof.
  intros Hcheck Hallowed Hd.
  pose proof (checkQuota_same_data _ _ _ _ _ Hcheck) as Hsame1.
  destruct (getVoicePrompt_returns
              (js_or (body_field body "voicePreset") (VStr "default")) w1)
    as (prompt & w2 & Hvoice & Hsame2).
  pose proof (same_data_trans _ _ _ Hsame1 Hsame2)
    as (_ & _ & Hlogs & _ & _ & _ & _ & Hfetch & Hsent & _).
  eexists. split.
  - unfold generate_script.
    rewrite (bind_returns Date_now _ w (clock_ms w) w eq_refl).
    erewrite try_catch_throws; [apply generate_script_catch_throws|].
    unfold generate_script_try.
    rewrite (bind_returns _ _ _ _ _ Hcheck), Hallowed. cbn [negb].
    rewrite (bind_returns _ _ _ _ _ (try_scope_script_voicePreset userId body _ w1)).
    rewrite (bind_returns _ _ _ _ _ Hvoice).
    erewrite bind_returns.
    2:{ unfold identifier. simpl. unfold body_field. rewrite Hd. reflexivity. }
    reflexivity.
  - simpl. rewrite Hfetch, Hlogs, Hsent. repeat split; try done.
    by rewrite last_snoc.
Qed.

Lemma script_without_duration_stops_before_remote_witness :
  exists w',
    generate_script Server 2 {[ "topic" := "espresso" ]} sample_world
    = (Throws (ReferenceError "topic is not defined"), w')
    /\ fetch_trace w' = fetch_trace sample_world.
Proof.
  assert (checkQuota 2 "script" sample_world = (Returns _, _)) as Hcheck
    by (vm_compute; reflexivity).
  assert (({[ "topic" := "espresso" ]} : gmap string string) !! "duration" = None)
    as Hbody by compute_done.
  destruct (script_without_duration_stops_before_remote Server 2
              {[ "topic" := "espresso" ]} _ _ _ Hcheck eq_refl Hbody)
    as (w' & Hrun & Hfetch & _).
  exists w'. split; [exact Hrun|exact Hfetch].
Defined.

Lemma unauthenticated_request_stops_first_witness :
  through [authenticateToken; apiLimiter; generationLimiter]
    (fun _ => throw (Error "handler reached"))
    {| authorization := NoToken; client := "203.0.113.7"; req_user := None; req_body := ∅ |}
    sample_world
  = (Returns (),
     set_sent sample_world [{| res_status := 401;
                               res_body := ErrorBody (Some "Access token required") |}]).
Proof.
  destruct unauthenticated_request_stops_first as (_ & Hmissing & _).
  exact (Hmissing [apiLimiter; generationLimiter] _
           {| authorization := NoToken; client := "203.0.113.7"; req_user := None;
              req_body := ∅ |} sample_world eq_refl).
Defined.


(** ** Seeding of the voice presets *)

Lemma seed_voice_presets_lookup table name :
  seed_voice_presets table !! name
  = match list_find (fun row => row.1 = name) (reverse seeded_voice_presets) with
    | Some (_, row) => Some row.2
    | None => table !! name
    end.
Proof.
  unfold seed_voice_presets, seeded_voice_presets. cbn [foldl fst snd].
  rewrite !lookup_insert. cbn [reverse rev_append list_find fst snd].
  repeat (case_decide; [subst; simpl; repeat (case_decide; [|done]); try done|]).
  cbn [list_find fmap option_fmap option_map]. repeat case_decide; try done.
Qed.

(** X27. Start-up seeding restores the prompts of the six built-in voice
    presets.  Whatever the table held, each seeded name has its seeded
    prompt afterwards, presets of other names are untouched, and seeding
    twice is the same as seeding once.  With the store answering,
    [getVoicePrompt] then returns the seeded prompt for a seeded name,
    and none of these is the fallback prompt of the code. *)
Theorem seeding_restores_voice_prompts table :
  (forall name prompt,
     (name, prompt) ∈ seeded_voice_presets ->
     seed_voice_presets table !! name = Some prompt)
  /\ (forall name,
        name ∉ seeded_voice_presets.*1 ->
        seed_voice_presets table !! name = table !! name)
  /\ seed_voice_presets (seed_voice_presets table) = seed_voice_presets table
  /\ (forall w name prompt,
        (name, prompt) ∈ seeded_voice_presets ->
        voice_presets w = seed_voice_presets table ->
        head (db_faults w) <> Some true ->
        prompt <> default_voice_prompt
        /\ exists w', getVoicePrompt (VStr name) w = (Returns prompt, w')).
Proof.
  assert (forall name prompt,
            (name, prompt) ∈ seeded_voice_presets ->
            seed_voice_presets table !! name = Some prompt
            /\ prompt <> default_voice_prompt) as Hseeded.
  { intros name prompt. unfold seeded_voice_presets.
    rewrite !elem_of_cons, elem_of_nil, seed_voice_presets_lookup.
    intros H; repeat destruct H as [[= -> ->]|H]; try done; by split. }
  split; [intros; by apply Hseeded|]. split; [|split].
  - intros name. unfold seeded_voice_presets. cbn [fmap list_fmap fst].
    rewrite !elem_of_cons, elem_of_nil, seed_voice_presets_lookup. intros Hnot.
    cbn [reverse rev_append seeded_voice_presets list_find fst snd].
    repeat (case_decide; [exfalso; apply Hnot; subst; auto 10|]). done.
  - apply map_eq. intros name. rewrite !seed_voice_presets_lookup.
    by destruct (list_find _ _) as [[? ?]|].
  - intros w name prompt Hin Htable Hup.
    destruct (Hseeded name prompt Hin) as [Hlookup Hne]. split; [done|].
    destruct (getVoicePrompt_answered name w Hup) as [prompt' Hrun].
    revert Hrun. unfold getVoicePrompt, try_catch, bind.
    rewrite pool_query_select by done. simpl. rewrite Htable, Hlookup. simpl. eauto.
Qed.

Lemma seeding_restores_voice_prompts_witness :
  exists w',
    getVoicePrompt (VStr "default")
      (set_db (World ∅ ∅ [] (seed_voice_presets {[ "default" := "Be brief." ]})
                 (Timestamp 2025 6 15 0) [] [] 0 (FetchRejects (Error "offline")) [] [] [] ∅)
         [] [])
    = (Returns "You are an expert YouTube content creator with deep knowledge of viral content strategies.",
       w').
Proof.
  destruct (seeding_restores_voice_prompts {[ "default" := "Be brief." ]})
    as (_ & _ & _ & Hprompt).
  apply (Hprompt _ "default"); [|reflexivity|done].
  unfold seeded_voice_presets. apply elem_of_cons. by left.
Defined.

(** ** Accounts and saved scripts *)

Lemma filter_ext_in {A} (P Q : A -> Prop) `{!forall x, Decision (P x)}
    `{!forall x, Decision (Q x)} (l : list A) :
  (forall x, x ∈ l -> P x <-> Q x) -> filter P l = filter Q l.
Proof.
  induction l as [|x l IH]; intros Hall; [done|].
  rewrite !filter_cons. rewrite IH by (intros; apply Hall, elem_of_cons; by right).
  assert (P x <-> Q x) as Hx by (apply Hall, elem_of_cons; by left).
  destruct (decide (P x)) as [HP|HP], (decide (Q x)) as [HQ|HQ]; try done.
  - exfalso. apply HQ, Hx, HP.
  - exfalso. apply HP, Hx, HQ.
Qed.

Lemma filter_all {A} (P : A -> Prop) `{!forall x, Decision (P x)} (l : list A) :
  (forall x, x ∈ l -> P x) -> filter P l = l.
Proof.
  induction l as [|x l IH]; intros Hall; [done|].
  rewrite filter_cons_True by (apply Hall, elem_of_cons; by left).
  f_equal. apply IH. intros; apply Hall, elem_of_cons; by right.
Qed.

Lemma filter_none {A} (P : A -> Prop) `{!forall x, Decision (P x)} (l : list A) :
  (forall x, x ∈ l -> ~ P x) -> filter P l = [].
Proof.
  induction l as [|x l IH]; intros Hall; [done|].
  rewrite filter_cons_False by (apply Hall, elem_of_cons; by left).
  apply IH. intros; apply Hall, elem_of_cons; by right.
Qed.

Lemma ts_leb_total t1 t2 : ts_leb t1 t2 = true \/ ts_leb t2 t1 = true.
Proof.
  unfold ts_leb. repeat case_bool_decide; try (by left); try (by right); exfalso; lia.
Qed.

Lemma ts_leb_trans t1 t2 t3 :
  ts_leb t1 t2 = true -> ts_leb t2 t3 = true -> ts_leb t1 t3 = true.
Proof.
  unfold ts_leb. repeat case_bool_decide; try done; intros _ _; exfalso; lia.
Qed.

#[local] Instance newer_first_total : Total newer_first.
Proof. intros r1 r2. unfold newer_first. destruct (ts_leb_total (script_updated_at r2) (script_updated_at r1)); auto. Qed.

#[local] Instance newer_first_trans : Transitive newer_first.
Proof. intros r1 r2 r3 H12 H23. unfold newer_first in *. by eapply ts_leb_trans. Qed.

Lemma count_case_counted userId feature w :
  count_case feature
    (filter (fun r => user_id r = Some userId)
       (filter (fun r => ts_leb (date_trunc_month (current_timestamp w)) (created_at r) = true)
          (usage_logs w)))
  = usage_count userId feature w.
Proof.
  unfold count_case, usage_count. rewrite !list_filter_filter. do 2 f_equal.
  apply list_filter_iff. intros r. unfold counted.
  rewrite !andb_true_iff, !bool_decide_eq_true.
  split; [intros [[[? ?] ?] ?]|intros [[[? ?] ?] ?]]; repeat split; done.
Qed.

Lemma usage_stats_counts userId w :
  default (0, 0, 0) (usage_stats userId w)
  = (usage_count userId "script" w, usage_count userId "hooks" w,
     usage_count userId "titles" w).
Proof.
  rewrite <- !count_case_counted. unfold usage_stats.
  by destruct (filter (fun r => user_id r = Some userId) _).
Qed.

Lemma available_faults n w w' :
  db_faults w' = db_faults w -> available n w -> available n w'.
Proof. unfold available. by intros ->. Qed.



Section AccountProperties.

#[local] Set Default Proof Using "Type".

Variable varchar : Z -> string -> bool.
Variable int4_in : string -> option Z.
Variable bcrypt_hash : string -> string -> string.
Variable bcrypt_compare : string -> string -> bool.
Variable jwt_sign : token_payload -> Z -> outcome string.

Lemma store_query_up {A} q (run : backend -> option A * backend) a :
  head (db_faults (core a)) <> Some true ->
  store_query q run a =
    match run (sent_to_store q a) with
    | (Some x, a2) => (Returns x, a2)
    | (None, a2) => (Throws (Error "statement rejected by the database"), a2)
    end.
Proof.
  intros H. unfold store_query, sent_to_store.
  destruct (db_faults (core a)) as [|[] ?]; simpl in *; congruence.
Qed.

Lemma store_query_fault {A} q (run : backend -> option A * backend) a :
  head (db_faults (core a)) = Some true ->
  store_query q run a
  = (Throws (Error "Connection terminated unexpectedly"), sent_to_store q a).
Proof.
  intros H. unfold store_query, sent_to_store.
  destruct (db_faults (core a)) as [|[] ?]; simpl in *; congruence.
Qed.

Lemma store_query_cases {A} q (run : backend -> option A * backend) a :
  (exists x, store_query q run a = (Returns x, (run (sent_to_store q a)).2)
             /\ (run (sent_to_store q a)).1 = Some x)
  \/ (exists e a', store_query q run a = (Throws e, a')
                   /\ (a' = sent_to_store q a \/ a' = (run (sent_to_store q a)).2)).
Proof.
  destruct (decide (head (db_faults (core a)) = Some true)) as [Hf|Hf].
  - right. rewrite store_query_fault by done. eauto.
  - rewrite store_query_up by done.
    destruct (run (sent_to_store q a)) as [[x|] a2]; simpl; eauto 6.
Qed.

Lemma insert_saved_script_replies userId body a :
  replies (insert_saved_script varchar userId body a).2 = replies a.
Proof. unfold insert_saved_script. by repeat case_match. Qed.

Lemma delete_saved_script_replies id userId a :
  replies (delete_saved_script int4_in id userId a).2 = replies a.
Proof. unfold delete_saved_script. by case_match. Qed.

Lemma insert_user_replies address passwordHash firstName lastName a :
  replies (insert_user varchar address passwordHash firstName lastName a).2 = replies a.
Proof. unfold insert_user. by case_match. Qed.

Lemma reading_replies {A} (rows : backend -> A) a : replies (reading rows a).2 = replies a.
Proof. reflexivity. Qed.

Lemma save_script_replies_once userId body : replies_once (save_script varchar userId body).
Proof.
  intros a. unfold save_script, async_try_catch, async_bind.
  destruct (store_query_cases (InsertSavedScript userId)
              (insert_saved_script varchar userId body) a)
    as [(x & -> & _)|(e & a' & -> & [->| ->])]; simpl;
    eexists _, _; (split; [reflexivity|]); simpl;
    by rewrite ?insert_saved_script_replies.
Qed.

Lemma saved_scripts_of_replies_once userId : replies_once (get_saved_scripts userId).
Proof.
  intros a. unfold get_saved_scripts, async_try_catch, async_bind.
  destruct (store_query_cases (SelectSavedScripts userId)
              (reading (select_saved_scripts userId)) a)
    as [(x & -> & _)|(e & a' & -> & [->| ->])]; simpl;
    eexists _, _; (split; [reflexivity|]); by simpl.
Qed.

Lemma delete_script_replies_once userId id : replies_once (delete_script int4_in userId id).
Proof.
  intros a. unfold delete_script, async_try_catch, async_bind.
  destruct (store_query_cases (DeleteSavedScript id userId)
              (delete_saved_script int4_in id userId) a)
    as [(x & -> & _)|(e & a' & -> & [->| ->])]; simpl;
    try case_bool_decide; simpl;
    eexists _, _; (split; [reflexivity|]); simpl;
    by rewrite ?delete_saved_script_replies.
Qed.

Lemma user_profile_replies_once userId : replies_once (user_profile userId).
Proof.
  intros a. unfold user_profile, async_try_catch, async_bind.
  destruct (store_query_cases (SelectProfile userId)
              (reading (select_profile userId)) a)
    as [(x & -> & _)|(e & a' & -> & [->| ->])]; simpl;
    try destruct x; simpl;
    eexists _, _; (split; [reflexivity|]); by simpl.
Qed.

Lemma sign_token_state user a :
  (sign_token jwt_sign user a).2 = a.
Proof. reflexivity. Qed.

Lemma login_replies_once body : replies_once (login bcrypt_compare jwt_sign body).
Proof.
  intros a. unfold login, async_try_catch, async_bind.
  destruct (store_query_cases (SelectUser (login_email body))
              (reading (users_with_email (login_email body))) a)
    as [(x & -> & _)|(e & a' & -> & [->| ->])]; simpl.
  2,3: eexists _, _; (split; [reflexivity|]); by simpl.
  destruct x as [|user rest]; simpl.
  { eexists _, _; (split; [reflexivity|]); by simpl. }
  unfold compare_password.
  destruct (login_password body) as [p|]; simpl.
  2: eexists _, _; (split; [reflexivity|]); by simpl.
  destruct (bcrypt_compare p _); simpl.
  2: eexists _, _; (split; [reflexivity|]); by simpl.
  unfold sign_token. destruct (jwt_sign _ _); simpl;
    eexists _, _; (split; [reflexivity|]); by simpl.
Qed.

Lemma register_replies_once body :
  replies_once (register varchar bcrypt_hash jwt_sign body).
Proof.
  intros a. unfold register, async_try_catch.
  destruct (given (register_email body)) as [address|]; simpl.
  2: eexists _, _; (split; [reflexivity|]); by simpl.
  destruct (given (register_password body)) as [password|]; simpl.
  2: eexists _, _; (split; [reflexivity|]); by simpl.
  case_bool_decide; simpl.
  { eexists _, _; (split; [reflexivity|]); by simpl. }
  unfold async_bind at 1.
  destruct (store_query_cases (SelectUserId address)
              (reading (users_with_email (Some address))) a)
    as [(x & -> & _)|(e & a' & -> & [->| ->])]; simpl.
  2,3: eexists _, _; (split; [reflexivity|]); by simpl.
  case_bool_decide; simpl.
  { eexists _, _; (split; [reflexivity|]); by simpl. }
  unfold async_bind at 1, hash_password at 1. simpl.
  unfold async_bind at 1.
  match goal with |- context [store_query ?q ?run ?a0] =>
    destruct (store_query_cases q run a0)
      as [(u & -> & _)|(e & a' & -> & [->| ->])] end; simpl.
  2,3: eexists _, _; (split; [reflexivity|]); simpl;
       by rewrite ?insert_user_replies.
  unfold async_bind, sign_token. destruct (jwt_sign _ _); simpl;
    eexists _, _; (split; [reflexivity|]); simpl;
    by rewrite ?insert_user_replies.
Qed.

(** X12. The account and saved-script routes answer every request
    exactly once and never throw, whatever the request holds and whatever
    the store does: their [catch] blocks name nothing that is out of
    scope. *)
Theorem account_routes_reply_once :
  (forall body, replies_once (register varchar bcrypt_hash jwt_sign body))
  /\ (forall body, replies_once (login bcrypt_compare jwt_sign body))
  /\ (forall userId, replies_once (user_profile userId))
  /\ (forall userId body, replies_once (save_script varchar userId body))
  /\ (forall userId, replies_once (get_saved_scripts userId))
  /\ (forall userId id, replies_once (delete_script int4_in userId id)).
Proof.
  repeat split; intros.
  - apply register_replies_once.
  - apply login_replies_once.
  - apply user_profile_replies_once.
  - apply save_script_replies_once.
  - apply saved_scripts_of_replies_once.
  - apply delete_script_replies_once.
Qed.

Lemma insert_saved_script_rows userId body a :
  let run := insert_saved_script varchar userId body a in
  saved_scripts run.2 = saved_scripts a
  \/ exists row, run.1 = Some row /\ script_user_id row = userId
                 /\ saved_scripts run.2 = saved_scripts a ++ [row].
Proof.
  unfold insert_saved_script. repeat case_match; simpl; eauto.
Qed.

Lemma delete_saved_script_rows id userId a :
  let run := delete_saved_script int4_in id userId a in
  saved_scripts run.2 = saved_scripts a
  \/ exists n, int4_in id = Some n
               /\ saved_scripts run.2
                  = filter (fun r => ~ (script_id r = n /\ script_user_id r = userId))
                           (saved_scripts a).
Proof.
  unfold delete_saved_script. case_match; simpl; eauto.
Qed.

Lemma scripts_of_app userId a rows more :
  saved_scripts a = rows ++ more ->
  scripts_of userId a
  = filter (fun r => script_user_id r = userId) rows
    ++ filter (fun r => script_user_id r = userId) more.
Proof. unfold scripts_of. intros ->. apply filter_app. Qed.

(** X13. Saved scripts are private to their owner.  No request of one
    user to save, list or delete scripts changes the saved scripts of
    another user, whatever the request holds and whatever the store
    does. *)
Theorem saved_scripts_private userId other :
  other <> userId ->
  forall route,
    (exists body, route = save_script varchar userId body)
    \/ route = get_saved_scripts userId
    \/ (exists id, route = delete_script int4_in userId id) ->
    forall a, scripts_of other (route a).2 = scripts_of other a.
Proof.
  intros Hother route Hroute a.
  assert (forall a1 a2 : backend,
            (saved_scripts a2 = saved_scripts a1
             \/ (exists row, script_user_id row = userId
                             /\ saved_scripts a2 = saved_scripts a1 ++ [row])
             \/ (exists n, saved_scripts a2
                           = filter (fun r => ~ (script_id r = n /\ script_user_id r = userId))
                                    (saved_scripts a1))) ->
            scripts_of other a2 = scripts_of other a1) as Hframe.
  { intros a1 a2 [H|[(row & Hrow & H)|(n & H)]]; unfold scripts_of; rewrite H.
    - done.
    - rewrite filter_app, filter_cons_False, filter_nil, app_nil_r; [done|congruence].
    - rewrite list_filter_filter. apply list_filter_iff. intros r.
      split; [by intros [? _]|]. intros Ho. split; [done|]. intros [_ Hu]. congruence. }
  apply Hframe.
  destruct Hroute as [(body & ->)|[->|(id & ->)]].
  - unfold save_script, async_try_catch, async_bind.
    pose proof (insert_saved_script_rows userId body
                  (sent_to_store (InsertSavedScript userId) a)) as Hrows.
    destruct (store_query_cases (InsertSavedScript userId)
                (insert_saved_script varchar userId body) a)
      as [(x & -> & _)|(e & a' & -> & [->| ->])]; simpl in *;
      destruct Hrows as [?|(row & _ & ? & ?)]; eauto 6.
  - unfold get_saved_scripts, async_try_catch, async_bind.
    destruct (store_query_cases (SelectSavedScripts userId)
                (reading (select_saved_scripts userId)) a)
      as [(x & -> & _)|(e & a' & -> & [->| ->])]; simpl; by left.
  - unfold delete_script, async_try_catch, async_bind.
    pose proof (delete_saved_script_rows id userId
                  (sent_to_store (DeleteSavedScript id userId) a)) as Hrows.
    destruct (store_query_cases (DeleteSavedScript id userId)
                (delete_saved_script int4_in id userId) a)
      as [(x & -> & _)|(e & a' & -> & [->| ->])]; simpl in *;
      try case_bool_decide; simpl; destruct Hrows as [?|(n & _ & ?)]; eauto 6.
Qed.

(** X14. With the store answering, the list route answers 200 with all
    saved scripts of the user and no others, every script at least as
    recently updated as those after it, and changes no row. *)
Theorem saved_scripts_listed_newest_first userId a :
  head (db_faults (core a)) <> Some true ->
  exists rows a',
    get_saved_scripts userId a = (Returns (), a')
    /\ replies a' = replies a ++ [{| reply_status := 200;
                                     reply_body_of := ScriptsReply rows |}]
    /\ rows ≡ₚ scripts_of userId a
    /\ StronglySorted newer_first rows
    /\ saved_scripts a' = saved_scripts a.
Proof.
  intros Hup. exists (select_saved_scripts userId a). eexists. split.
  - unfold get_saved_scripts, async_try_catch, async_bind.
    rewrite store_query_up by done. reflexivity.
  - simpl. split; [done|]. split; [apply merge_sort_Permutation|].
    split; [|done]. apply Sorted_StronglySorted; [apply _|].
    apply (Sorted_merge_sort newer_first).
Qed.




(** X16. A save request without a topic is answered 500 and stores
    nothing, whatever else it holds, a title included: [topic] is
    [NOT NULL]. *)
Theorem save_without_topic_fails userId body a :
  save_topic body = None ->
  exists a',
    save_script varchar userId body a = (Returns (), a')
    /\ replies a' = replies a ++ [{| reply_status := 500;
                                     reply_body_of := ErrorReply "Failed to save script" |}]
    /\ saved_scripts a' = saved_scripts a.
Proof.
  intros Htopic. unfold save_script, async_try_catch, async_bind.
  destruct (decide (head (db_faults (core a)) = Some true)) as [Hf|Hf].
  - rewrite store_query_fault by done. eexists. split; [reflexivity|]. by split.
  - rewrite store_query_up by done. unfold insert_saved_script. rewrite Htopic.
    destruct (text_or _ _); simpl; (eexists; split; [reflexivity|]; by split).
Qed.

Lemma primary_key (l : list saved_script) r1 r2 :
  NoDup (script_id <$> l) -> r1 ∈ l -> r2 ∈ l -> script_id r1 = script_id r2 -> r1 = r2.
Proof.
  induction l as [|x l IH]; [by intros _ ?%elem_of_nil|].
  rewrite fmap_cons, NoDup_cons, !elem_of_cons. intros [Hx Hl] [->|H1] [->|H2] Hid; auto.
  - exfalso. apply Hx. rewrite Hid. by apply list_elem_of_fmap_2.
  - exfalso. apply Hx. rewrite <- Hid. by apply list_elem_of_fmap_2.
Qed.

Lemma filter_out_one (l : list saved_script) row :
  NoDup (script_id <$> l) -> row ∈ l ->
  S (length (filter (fun r => script_id r <> script_id row) l)) = length l.
Proof.
  induction l as [|x l IH]; [by intros _ ?%elem_of_nil|].
  rewrite fmap_cons, NoDup_cons, elem_of_cons. intros [Hx Hl] Hrow.
  rewrite filter_cons. destruct (decide (script_id x <> script_id row)) as [Hne|Heq].
  - simpl. f_equal. apply IH; [done|]. destruct Hrow as [->|]; done.
  - apply dec_stable in Heq. simpl. f_equal.
    rewrite filter_all; [done|]. intros y Hy Hid. apply Hx. rewrite Heq, <- Hid.
    by apply list_elem_of_fmap_2.
Qed.

(** X17. Deleting a script of one's own: with the store answering and
    ids being unique, the route answers 200 and the table loses exactly
    the row of that id. *)
Theorem delete_own_script userId id n row a :
  head (db_faults (core a)) <> Some true ->
  int4_in id = Some n ->
  NoDup (script_id <$> saved_scripts a) ->
  row ∈ saved_scripts a ->
  script_id row = n ->
  script_user_id row = userId ->
  exists a',
    delete_script int4_in userId id a = (Returns (), a')
    /\ replies a' = replies a ++ [{| reply_status := 200; reply_body_of := SuccessReply |}]
    /\ saved_scripts a' = filter (fun r => script_id r <> n) (saved_scripts a)
    /\ S (length (saved_scripts a')) = length (saved_scripts a).
Proof.
  intros Hup Hid Hkey Hrow Hn Howner.
  assert (filter (fun r => ~ (script_id r = n /\ script_user_id r = userId)) (saved_scripts a)
          = filter (fun r => script_id r <> n) (saved_scripts a)) as Hfilter.
  { apply filter_ext_in. intros r Hr. split; [|by intros Hne [? _]].
    intros Hnot Heq. apply Hnot. split; [done|].
    by rewrite (primary_key _ r row Hkey Hr Hrow) by congruence. }
  eexists. split.
  { unfold delete_script, async_try_catch, async_bind.
    rewrite store_query_up by done. unfold delete_saved_script. rewrite Hid.
    rewrite bool_decide_eq_false_2; [reflexivity|].
    rewrite length_fmap. simpl.
    assert (row ∈ filter (fun r => script_id r = n /\ script_user_id r = userId)
                         (saved_scripts a)) as Hin
      by (by apply list_elem_of_filter).
    intros Hnil%nil_length_inv. rewrite Hnil in Hin. by apply elem_of_nil in Hin. }
  simpl. split; [done|]. split; [done|].
  rewrite Hfilter. subst n. by apply filter_out_one.
Qed.

(** X18. Deleting what is not one's own.  An id that no script of the
    user has, be it unused or the id of a script of another user, is
    answered 404 and no row is removed; an id that the store does not
    read as an integer is answered 500, and no row is removed either. *)
Theorem delete_foreign_script userId id a :
  head (db_faults (core a)) <> Some true ->
  (forall n,
     int4_in id = Some n ->
     (forall r, r ∈ saved_scripts a -> script_id r = n -> script_user_id r <> userId) ->
     exists a',
       delete_script int4_in userId id a = (Returns (), a')
       /\ replies a' = replies a ++ [{| reply_status := 404;
                                        reply_body_of := ErrorReply "Script not found" |}]
       /\ saved_scripts a' = saved_scripts a)
  /\ (int4_in id = None ->
      exists a',
        delete_script int4_in userId id a = (Returns (), a')
        /\ replies a' = replies a ++ [{| reply_status := 500;
                                         reply_body_of := ErrorReply "Failed to delete script" |}]
        /\ saved_scripts a' = saved_scripts a).
Proof.
  intros Hup. split.
  - intros n Hid Hforeign.
    assert (filter (fun r => script_id r = n /\ script_user_id r = userId) (saved_scripts a)
            = []) as Hnone.
    { apply filter_none. intros r Hr [Hn Ho]. by apply (Hforeign r). }
    eexists. split.
    { unfold delete_script, async_try_catch, async_bind.
      rewrite store_query_up by done. unfold delete_saved_script. rewrite Hid.
      simpl. rewrite Hnone. reflexivity. }
    simpl. split; [done|].
    apply filter_all. intros r Hr [Hn Ho]. by apply (Hforeign r).
  - intros Hid. eexists. split.
    { unfold delete_script, async_try_catch, async_bind.
      rewrite store_query_up by done. unfold delete_saved_script. rewrite Hid.
      reflexivity. }
    by simpl.
Qed.


Lemma users_table_lookup a id u c :
  users (core a) !! id = Some u -> accounts a !! id = Some c ->
  users_table a !! id = Some (u, c).
Proof. intros Hu Hc. unfold users_table. by apply map_lookup_zip_Some. Qed.











(** X24. A failed login does not tell why.  For an email that no user
    has and for a wrong password of an existing user the route sends the
    same 401 [Invalid credentials], and leaves nothing behind but the
    look-up and that answer. *)
Theorem login_rejections_look_alike body a :
  head (db_faults (core a)) <> Some true ->
  users_with_email (login_email body) a = []
  \/ (exists user rest p,
        users_with_email (login_email body) a = user :: rest
        /\ login_password body = Some p
        /\ bcrypt_compare p (password_hash user.2.2) = false) ->
  login bcrypt_compare jwt_sign body a
  = (Returns (),
     set_replies (sent_to_store (SelectUser (login_email body)) a)
       (replies a ++ [{| reply_status := 401;
                         reply_body_of := ErrorReply "Invalid credentials" |}])).
Proof.
  intros Hup Hcase. unfold login, async_try_catch, async_bind.
  rewrite store_query_up by done. unfold reading. cbv beta iota.
  change (users_with_email (login_email body)
            (sent_to_store (SelectUser (login_email body)) a))
    with (users_with_email (login_email body) a).
  destruct Hcase as [->|(user & rest & p & -> & -> & Hwrong)]; [reflexivity|].
  unfold compare_password, async_ret. by rewrite Hwrong.
Qed.

(** X25. A login request without a password does tell whether the
    email is registered: 401 when it is not, and 500 when it is, because
    [bcrypt.compare] rejects a password that is not a string. *)
Theorem login_without_password body a :
  head (db_faults (core a)) <> Some true ->
  login_password body = None ->
  exists a',
    login bcrypt_compare jwt_sign body a = (Returns (), a')
    /\ replies a'
       = replies a
         ++ [if decide (users_with_email (login_email body) a = [])
             then {| reply_status := 401;
                     reply_body_of := ErrorReply "Invalid credentials" |}
             else {| reply_status := 500; reply_body_of := ErrorReply "Login failed" |}].
Proof.
  intros Hup Hnone. unfold login, async_try_catch, async_bind.
  rewrite store_query_up by done. unfold reading. cbv beta iota.
  change (users_with_email (login_email body)
            (sent_to_store (SelectUser (login_email body)) a))
    with (users_with_email (login_email body) a).
  rewrite Hnone. destruct (users_with_email (login_email body) a) as [|user rest].
  - rewrite decide_True by done. eexists. split; [reflexivity|done].
  - rewrite decide_False by done. eexists. split; [reflexivity|done].
Qed.

(** X26. The profile shows the numbers the quota check uses.  With the
    store answering, the usage the profile reports for scripts, hooks and
    titles is the monthly count of [checkQuota], and the limits are those
    of the policy row of the user's tier; both they and the tier the
    profile reports are null when the tier has no policy row (the row
    object takes [access_level] from the joined policy). *)
Theorem profile_shows_the_quota_numbers userId u c a :
  available 1 (core a) ->
  users (core a) !! userId = Some u ->
  accounts a !! userId = Some c ->
  exists data a',
    user_profile userId a = (Returns (), a')
    /\ replies a' = replies a ++ [{| reply_status := 200;
                                     reply_body_of := ProfileReply data |}]
    /\ usage_script data = usage_count userId "script" (core a)
    /\ usage_hooks data = usage_count userId "hooks" (core a)
    /\ usage_titles data = usage_count userId "titles" (core a)
    /\ quota_script_limit data
       = (usage_quotas (core a) !! access_level u) ≫= feature_limit "script"
    /\ quota_hooks_limit data
       = (usage_quotas (core a) !! access_level u) ≫= feature_limit "hooks"
    /\ quota_titles_limit data
       = (usage_quotas (core a) !! access_level u) ≫= feature_limit "titles"
    /\ profile_accessLevel data
       = (fun _ => access_level u) <$> (usage_quotas (core a) !! access_level u).
Proof.
  intros Hup Hu Hc. apply available_head in Hup.
  eexists _, _. split.
  { unfold user_profile, async_try_catch, async_bind.
    rewrite store_query_up by done. unfold reading. cbv beta iota.
    unfold select_profile.
    change (users_table (sent_to_store (SelectProfile userId) a)) with (users_table a).
    rewrite (users_table_lookup a userId u c) by done. reflexivity. }
  split; [done|].
  cbn [usage_script usage_hooks usage_titles quota_script_limit quota_hooks_limit
       quota_titles_limit profile_accessLevel fst snd].
  change (core (sent_to_store (SelectProfile userId) a))
    with (set_db (core a) (tail (db_faults (core a))) (db_trace (core a))).
  assert (forall f, usage_count userId f
                      (set_db (core a) (tail (db_faults (core a))) (db_trace (core a)))
                    = usage_count userId f (core a)) as Hcount by done.
  rewrite usage_stats_counts, !Hcount. cbn [fst snd usage_quotas set_db].
  repeat split; by destruct (usage_quotas (core a) !! access_level u).
Qed.


End AccountProperties.

Lemma saved_scripts_private_witness :
  scripts_of 2 (delete_script sample_int4_in 1 "2" sample_backend).2
  = scripts_of 2 sample_backend.
Proof.
  apply (saved_scripts_private sample_varchar sample_int4_in 1 2); [lia|].
  right. right. by exists "2".
Defined.

Lemma saved_scripts_listed_newest_first_witness :
  exists rows a',
    get_saved_scripts 1 sample_backend = (Returns (), a')
    /\ rows ≡ₚ scripts_of 1 sample_backend
    /\ StronglySorted newer_first rows.
Proof.
  destruct (saved_scripts_listed_newest_first 1 sample_backend ltac:(compute_done))
    as (rows & a' & Hrun & _ & Hperm & Hsorted & _).
  by exists rows, a'.
Defined.


Lemma save_without_topic_fails_witness :
  exists a',
    save_script sample_varchar 1
      {| save_title := Some "Untitled"; save_topic := None; save_audience := None;
         save_duration := None; save_tone := None; save_videoType := None;
         save_voicePreset := None; save_scriptContent := Some "Pull the shot.";
         save_hooks := None; save_titles := None; save_outline := None;
         save_description := None; save_tags := None; save_thumbnailText := None;
         save_callToActions := None; save_scriptStats := None |} sample_backend
    = (Returns (), a')
    /\ saved_scripts a' = saved_scripts sample_backend.
Proof.
  destruct (save_without_topic_fails sample_varchar 1
              {| save_title := Some "Untitled"; save_topic := None; save_audience := None;
                 save_duration := None; save_tone := None; save_videoType := None;
                 save_voicePreset := None; save_scriptContent := Some "Pull the shot.";
                 save_hooks := None; save_titles := None; save_outline := None;
                 save_description := None; save_tags := None; save_thumbnailText := None;
                 save_callToActions := None; save_scriptStats := None |}
              sample_backend eq_refl)
    as (a' & Hrun & _ & Hrows).
  by exists a'.
Defined.

Lemma delete_own_script_witness :
  exists a',
    delete_script sample_int4_in 1 "3" sample_backend = (Returns (), a')
    /\ S (length (saved_scripts a')) = 3%nat.
Proof.
  destruct (delete_own_script sample_int4_in 1 "3" 3
              (script_row 3 1 "Grinders" "grinders" sample_save (Timestamp 2025 6 10 0))
              sample_backend)
    as (a' & Hrun & _ & _ & Hlength);
    [compute_done|reflexivity|compute_done
    |by apply (list_elem_of_lookup_2 _ 2%nat)|reflexivity|reflexivity|].
  by exists a'.
Defined.

Lemma delete_foreign_script_witness :
  exists a',
    delete_script sample_int4_in 1 "2" sample_backend = (Returns (), a')
    /\ replies a' = [{| reply_status := 404;
                        reply_body_of := ErrorReply "Script not found" |}]
    /\ saved_scripts a' = saved_scripts sample_backend.
Proof.
  destruct (delete_foreign_script sample_int4_in 1 "2" sample_backend ltac:(compute_done))
    as [Hforeign _].
  apply (Hforeign 2); [reflexivity|].
  intros r Hr Hid. simpl in Hr. rewrite !elem_of_cons, elem_of_nil in Hr.
  destruct Hr as [->|[->|[->|[]]]]; simpl in *; lia.
Defined.






Lemma login_rejections_look_alike_witness :
  login sample_bcrypt_compare sample_jwt_sign
    {| login_email := Some "ada@example.org"; login_password := Some "flatwhite" |}
    sample_backend
  = (Returns (),
     set_replies (sent_to_store (SelectUser (Some "ada@example.org")) sample_backend)
       [{| reply_status := 401; reply_body_of := ErrorReply "Invalid credentials" |}]).
Proof.
  apply (login_rejections_look_alike sample_bcrypt_compare sample_jwt_sign);
    [compute_done|].
  right. eexists _, _, _. split; [vm_compute; reflexivity|]. split; reflexivity.
Defined.

Lemma login_without_password_witness :
  exists a',
    login sample_bcrypt_compare sample_jwt_sign
      {| login_email := Some "ada@example.org"; login_password := None |} sample_backend
    = (Returns (), a')
    /\ replies a' = [{| reply_status := 500; reply_body_of := ErrorReply "Login failed" |}].
Proof.
  destruct (login_without_password sample_bcrypt_compare sample_jwt_sign
              {| login_email := Some "ada@example.org"; login_password := None |}
              sample_backend ltac:(compute_done) eq_refl)
    as (a' & Hrun & Hreplies).
  exists a'. split; [done|]. rewrite Hreplies. reflexivity.
Defined.

Lemma profile_shows_the_quota_numbers_witness :
  exists data a',
    user_profile 1 sample_backend = (Returns (), a')
    /\ usage_script data = 5
    /\ quota_script_limit data = Some 5.
Proof.
  destruct (profile_shows_the_quota_numbers 1
              (UserRow "ada@example.org" "free" "default")
              (Account (sample_bcrypt_hash "ristretto" "s") (Some "Ada") None "active"
                 (Timestamp 2025 1 10 0))
              sample_backend)
    as (data & a' & Hrun & _ & Hscript & _ & _ & Hlimit & _);
    [compute_done|reflexivity|reflexivity|].
  exists data, a'. split; [done|]. by rewrite Hscript, Hlimit.
Defined.
